(** * FloodSync API: the two FastAPI handlers of [floodsync_api.py]

    The module builds Earth Engine query expressions, sends them to the
    remote service through three materializing calls ([getInfo],
    [geemap.ee_to_geojson], [geemap.get_image_tile_url]) and packs what
    comes back into a JSON body or an [HTTPException].

    The embedding keeps that shape: query expressions are a syntax tree
    ([ee.t]), the remote service is a record of three oracles ([backend]),
    the handler bodies run in an exception monad that also records every
    materializing call, and Python dictionaries are [gmap string pyval]. *)

From Stdlib Require Import ZArith QArith String Ascii List Lia Bool.
From Stdlib Require Import Sorting.Sorted Sorting.Permutation.
From Corelib Require Import SpecFloat.
From stdpp Require Import gmap strings sorting.

Set Warnings "-register-all".

Local Open Scope string_scope.
Local Open Scope Z_scope.

(** ** Python values *)

(** What a JSON answer of the service decodes to, and what the handlers put
    in their result dictionaries.  A Python [float] is an IEEE 754 binary64
    number, kept here as a [spec_float]. *)
Inductive pyval : Type :=
| PNone
| PBool (b : bool)
| PInt (z : Z)
| PFloat (f : spec_float)
| PStr (s : string)
| PList (l : list pyval)
| PDict (kv : list (string * pyval)).

Abbreviation pydict := (gmap string pyval).

(** Exceptions.  [fastapi.HTTPException] derives from [Exception], like
    every other error the handlers can meet. *)
Inductive exn : Type :=
| HTTPException (status_code : Z) (detail : string)
| PyError (cls : string) (msg : string).

Inductive outcome (A : Type) : Type :=
| Return (a : A)
| Raise (e : exn).
Arguments Return {A} a.
Arguments Raise {A} e.

(** ** Decimal printing *)

Definition digit (n : Z) : ascii := ascii_of_nat (48 + Z.to_nat (n mod 10)).

Definition pad2 (n : Z) : string :=
  String (digit (n / 10)) (String (digit n) EmptyString).

Definition pad4 (n : Z) : string :=
  String (digit (n / 1000)) (String (digit (n / 100)) (pad2 n)).

Fixpoint digits_fuel (fuel : nat) (n : Z) (acc : string) : string :=
  match fuel with
  | O => acc
  | S k => if n <? 10 then String (digit n) acc
           else digits_fuel k (n / 10) (String (digit n) acc)
  end.

(** [str(n)] of a Python int. *)
Definition str_int (n : Z) : string :=
  if n <? 0 then String "-" (digits_fuel (S (Z.to_nat (Z.log2 (- n)))) (- n) "")
  else digits_fuel (S (Z.to_nat (Z.log2 n))) n "".

(** [str(e)]: Starlette's [HTTPException.__str__] gives
    ["{status_code}: {detail}"], other exceptions give their message. *)
Definition str_exn (e : exn) : string :=
  match e with
  | HTTPException c d => str_int c ++ ": " ++ d
  | PyError _ m => m
  end.

(** ** The datetime module, as far as the handler uses it *)

Module datetime.

(** A [datetime] is kept as its proleptic Gregorian ordinal (day 1 is
    0001-01-01).  The time of day is left out: [timedelta(days=30)] does
    not touch it and ["%Y-%m-%d"] does not print it. *)
Record t : Type := mk { toordinal : Z }.

Definition MAXORDINAL : Z := 3652059.  (* 9999-12-31 *)
Definition EPOCH : Z := 719163.        (* 1970-01-01 *)

Definition DI400Y : Z := 146097.
Definition DI100Y : Z := 36524.
Definition DI4Y : Z := 1461.

Definition is_leap (year : Z) : bool :=
  (year mod 4 =? 0) && (negb (year mod 100 =? 0) || (year mod 400 =? 0)).

Definition days_before_year (year : Z) : Z :=
  let y := year - 1 in y * 365 + y / 4 - y / 100 + y / 400.

Definition DAYS_IN_MONTH (month : Z) : Z :=
  match month with
  | 1 => 31 | 2 => 28 | 3 => 31 | 4 => 30 | 5 => 31 | 6 => 30
  | 7 => 31 | 8 => 31 | 9 => 30 | 10 => 31 | 11 => 30 | 12 => 31
  | _ => 0
  end.

Definition DAYS_BEFORE_MONTH (month : Z) : Z :=
  match month with
  | 1 => 0 | 2 => 31 | 3 => 59 | 4 => 90 | 5 => 120 | 6 => 151
  | 7 => 181 | 8 => 212 | 9 => 243 | 10 => 273 | 11 => 304 | 12 => 334
  | _ => 365
  end.

Definition days_before_month (year month : Z) : Z :=
  DAYS_BEFORE_MONTH month + (if (2 <? month) && is_leap year then 1 else 0).

Definition ymd2ord (year month day : Z) : Z :=
  days_before_year year + days_before_month year month + day.

(** [_ord2ymd] of CPython's datetime. *)
Definition ord2ymd (ordinal : Z) : Z * Z * Z :=
  let n := ordinal - 1 in
  let n400 := n / DI400Y in
  let n := n mod DI400Y in
  let year := n400 * 400 + 1 in
  let n100 := n / DI100Y in
  let n := n mod DI100Y in
  let n4 := n / DI4Y in
  let n := n mod DI4Y in
  let n1 := n / 365 in
  let n := n mod 365 in
  let year := year + n100 * 100 + n4 * 4 + n1 in
  if (n1 =? 4) || (n100 =? 4) then (year - 1, 12, 31)
  else
    let leapyear := (n1 =? 3) && (negb (n4 =? 24) || (n100 =? 3)) in
    let month := Z.shiftr (n + 50) 5 in
    let preceding :=
      DAYS_BEFORE_MONTH month + (if (2 <? month) && leapyear then 1 else 0) in
    if n <? preceding then
      let month := month - 1 in
      let preceding :=
        preceding - (DAYS_IN_MONTH month
                     + (if (month =? 2) && leapyear then 1 else 0)) in
      (year, month, n - preceding + 1)
    else (year, month, n - preceding + 1).

(** [d.strftime("%Y-%m-%d")], the year on four digits as the Python
    documentation gives it. *)
Definition strftime_Ymd (d : t) : string :=
  let '(y, m, dd) := ord2ymd (toordinal d) in
  pad4 y ++ "-" ++ pad2 m ++ "-" ++ pad2 dd.

(** [d - timedelta(days=n)]; leaving year 1 raises [OverflowError]. *)
Definition sub_days (d : t) (n : Z) : outcome t :=
  if toordinal d - n <? 1 then Raise (PyError "OverflowError" "date value out of range")
  else Return (mk (toordinal d - n)).

(** [datetime.now()] on a server whose local date is [today] days after
    1970-01-01; past year 9999 the constructor raises [ValueError]. *)
Definition now (today : N) : outcome t :=
  let o := EPOCH + Z.of_N today in
  if MAXORDINAL <? o then Raise (PyError "ValueError" "year 10000 is out of range")
  else Return (mk o).

(** Reading a ["YYYY-MM-DD"] string back, the way the service reads the
    arguments of [filterDate]. *)
Definition digit_val (c : ascii) : option Z :=
  let n := Z.of_nat (nat_of_ascii c) in
  if (48 <=? n) && (n <=? 57) then Some (n - 48) else None.

Definition num2 (a b : ascii) : option Z :=
  match digit_val a, digit_val b with
  | Some x, Some y => Some (10 * x + y)
  | _, _ => None
  end.

Definition ordinal_of_iso (s : string) : option Z :=
  match s with
  | String y1 (String y2 (String y3 (String y4 (String "-"
      (String m1 (String m2 (String "-" (String d1 (String d2 EmptyString))))))))) =>
      match num2 y1 y2, num2 y3 y4, num2 m1 m2, num2 d1 d2 with
      | Some yh, Some yl, Some m, Some d =>
          let y := 100 * yh + yl in
          if (1 <=? y) && (1 <=? m) && (m <=? 12) && (1 <=? d)
             && (d <=? DAYS_IN_MONTH m + (if (m =? 2) && is_leap y then 1 else 0))
          then Some (ymd2ord y m d) else None
      | _, _, _, _ => None
      end
  | _ => None
  end.

End datetime.

(** ** Earth Engine query expressions *)

(** Client-side [ee] objects are unevaluated expressions: building one
    performs no request.  Constructors carry the names of the methods that
    build them in the source. *)
Module ee.

Inductive Filter : Type :=
| Filter_eq (name : string) (value : string).

Inductive Reducer : Type :=
| Reducer_countEvery
| Reducer_sum.

Inductive t : Type :=
| FeatureCollection (id : string)
| ImageCollection (id : string)
| Image_pixelArea
| lambda_image                       (* the [image] bound by a mapped lambda *)
| filter (c : t) (f : Filter)
| first (c : t)
| geometry (f : t)
| filterBounds (c : t) (g : t)
| filterDate (c : t) (start : string) (end_ : string)
| select (c : t) (band : string)
| sort (c : t) (prop : string) (ascending : bool)
| map (c : t) (body : t)
| normalizedDifference (img : t) (bands : list string)
| rename (img : t) (name : string)
| median (c : t)
| mean (c : t)
| size (c : t)
| lt (img : t) (v : Q)
| gt (img : t) (v : Q)
| And (a : t) (b : t)
| selfMask (img : t)
| clip (img : t) (g : t)
| multiply (a : t) (b : t)
| reduceToVectors (img : t) (geometry : t) (scale : Z) (geometryType : string)
    (eightConnected : bool) (labelProperty : string) (reducer : Reducer)
| reduceRegion (img : t) (reducer : Reducer) (geometry : t) (scale : Z)
    (maxPixels : Z)
| get (dict : t) (key : string)
| aggregate_array (c : t) (prop : string)
| distinct (l : t)
| List_sort (l : t).

(** Every [filterDate] window that occurs in an expression. *)
Fixpoint date_windows (e : t) : list (string * string) :=
  match e with
  | FeatureCollection _ | ImageCollection _ | Image_pixelArea | lambda_image => nil
  | filterDate c s e' => (s, e') :: date_windows c
  | filter c _ | first c | geometry c | select c _ | sort c _ _
  | normalizedDifference c _ | rename c _ | median c | mean c | size c
  | lt c _ | gt c _ | selfMask c | get c _ | aggregate_array c _
  | distinct c | List_sort c => date_windows c
  | filterBounds a b | map a b | And a b | clip a b | multiply a b =>
      (date_windows a ++ date_windows b)%list
  | reduceToVectors a b _ _ _ _ _ | reduceRegion a _ b _ _ =>
      (date_windows a ++ date_windows b)%list
  end.

(** Image collections an expression reads, each with the [filterDate]
    windows applied on top of it. *)
Fixpoint collections (e : t) : list (string * list (string * string)) :=
  match e with
  | ImageCollection id => (id, nil) :: nil
  | FeatureCollection _ | Image_pixelArea | lambda_image => nil
  | filterDate c s e' =>
      List.map (fun p => (fst p, (snd p ++ (s, e') :: nil)%list)) (collections c)
  | filterBounds c _ | clip c _ => collections c
  | filter c _ | first c | geometry c | select c _ | sort c _ _
  | normalizedDifference c _ | rename c _ | median c | mean c | size c
  | lt c _ | gt c _ | selfMask c | get c _ | aggregate_array c _
  | distinct c | List_sort c => collections c
  | map a b | And a b | multiply a b => (collections a ++ collections b)%list
  | reduceToVectors a _ _ _ _ _ _ | reduceRegion a _ _ _ _ => collections a
  end.

End ee.

(** ** The remote service *)

Inductive call : Type :=
| getInfo (e : ee.t)
| ee_to_geojson (e : ee.t)
| get_image_tile_url (e : ee.t) (vis_params : pydict).

(** The three materializing calls, as oracles: an answer or an exception. *)
Record backend : Type := {
  be_getInfo : ee.t -> outcome pyval;
  be_ee_to_geojson : ee.t -> outcome pyval;
  be_get_image_tile_url : ee.t -> pydict -> outcome pyval
}.

Definition answer (be : backend) (c : call) : outcome pyval :=
  match c with
  | getInfo e => be_getInfo be e
  | ee_to_geojson e => be_ee_to_geojson be e
  | get_image_tile_url e v => be_get_image_tile_url be e v
  end.

(** ** The handler monad: exceptions, and a log of the calls sent *)

Definition M (A : Type) : Type := list call -> outcome A * list call.

Definition ret {A} (a : A) : M A := fun log => (Return a, log).

Definition raise {A} (e : exn) : M A := fun log => (Raise e, log).

Definition bind {A B} (m : M A) (k : A -> M B) : M B :=
  fun log =>
    match m log with
    | (Return a, log') => k a log'
    | (Raise e, log') => (Raise e, log')
    end.

(** [try: m  except Exception as e: h e] *)
Definition try_except {A} (m : M A) (h : exn -> M A) : M A :=
  fun log =>
    match m log with
    | (Return a, log') => (Return a, log')
    | (Raise e, log') => h e log'
    end.

Definition lift {A} (o : outcome A) : M A := fun log => (o, log).

Definition materialize (be : backend) (c : call) : M pyval :=
  fun log => (answer be c, (log ++ c :: nil)%list).

Notation "'let*' x := m 'in' k" := (bind m (fun x => k))
  (at level 10, x name, m at level 100, k at level 200).
Notation "m ;;; k" := (bind m (fun _ => k))
  (at level 100, k at level 200, right associativity).

(** ** Python operators the handlers use *)

Definition prec : Z := 53.
Definition emax : Z := 1024.

(** The literal [1e6]. *)
Definition float_1e6 : spec_float := S754_finite false 8589934592000000 (-33).

(** [float(z)] for an int: nearest double, [OverflowError] beyond the range. *)
Definition float_of_int (z : Z) : outcome spec_float :=
  match binary_normalize prec emax z 0 false with
  | S754_infinity _ =>
      Raise (PyError "OverflowError" "int too large to convert to float")
  | f => Return f
  end.

Definition float_div (x d : spec_float) : outcome pyval :=
  match d with
  | S754_zero _ => Raise (PyError "ZeroDivisionError" "float division by zero")
  | _ => Return (PFloat (SFdiv prec emax x d))
  end.

(** The left operand of [/] as a double: floats as they are, ints and
    bools converted, anything else a [TypeError]. *)
Definition as_float (v : pyval) : outcome spec_float :=
  match v with
  | PFloat x => Return x
  | PInt z => float_of_int z
  | PBool b => float_of_int (if b then 1 else 0)
  | _ => Raise (PyError "TypeError" "unsupported operand type(s) for /")
  end.

(** [v / d] with a float on the right. *)
Definition truediv (v : pyval) (d : spec_float) : outcome pyval :=
  match as_float v with
  | Return x => float_div x d
  | Raise e => Raise e
  end.

(** [v > 0] with the int literal on the right. *)
Definition gt_zero (v : pyval) : outcome bool :=
  match v with
  | PInt z => Return (0 <? z)
  | PBool b => Return b
  | PFloat x => Return (SFltb (S754_zero false) x)
  | _ => Raise (PyError "TypeError" "'>' not supported between instances")
  end.

(** Truth value of a [str]. *)
Definition truthy (s : string) : bool := negb (String.eqb s "").

(** [o or d] for an [Optional[str]] on the left: [d] is evaluated only when
    [o] is [None] or empty. *)
Definition or_else (o : option string) (d : M string) : M string :=
  match o with
  | Some s => if truthy s then ret s else d
  | None => d
  end.

(** [result.update(d)] *)
Definition update (result d : pydict) : pydict := d ∪ result.

(** ** The request model and the handlers *)

Record FloodMapRequest : Type := {
  country_name : string;
  start_date : option string;
  end_date : option string;
  layer_type : string
}.

Definition countries : ee.t := ee.FeatureCollection "FAO/GAUL/2015/level0".

Definition palette (colour : string) : pydict :=
  {[ "palette" := PList (PStr colour :: nil) ]}.

(** The Landsat composite both the historical and the risk branch build. *)
Definition landsat_ndwi (country_geom : ee.t) : ee.t :=
  ee.map
    (ee.filterDate
       (ee.filterBounds (ee.ImageCollection "LANDSAT/LC08/C02/T1_L2") country_geom)
       "2019-11-01" "2019-11-12")
    (ee.rename (ee.normalizedDifference ee.lambda_image ("SR_B5" :: "SR_B3" :: nil))
       "NDWI").

Definition vectors (img country_geom : ee.t) (label : string) : ee.t :=
  ee.reduceToVectors img country_geom 30 "polygon" false label ee.Reducer_countEvery.

(** [img.multiply(ee.Image.pixelArea()).reduceRegion(...).get(band)] *)
Definition area_sum (img country_geom : ee.t) (band : string) : ee.t :=
  ee.get
    (ee.reduceRegion (ee.multiply img ee.Image_pixelArea) ee.Reducer_sum
       country_geom 30 10000000000)
    band.

Definition country_geometry (name : string) : ee.t :=
  ee.geometry (ee.first (ee.filter countries (ee.Filter_eq "ADM0_NAME" name))).

Definition s1_collection (country_geom : ee.t) (start_date end_date : string) : ee.t :=
  ee.select
    (ee.filter
       (ee.filterDate
          (ee.filterBounds (ee.ImageCollection "COPERNICUS/S1_GRD") country_geom)
          start_date end_date)
       (ee.Filter_eq "instrumentMode" "IW"))
    "VV".

Definition rainfall_collection (country_geom : ee.t) (start_date end_date : string) : ee.t :=
  ee.select
    (ee.filterDate
       (ee.filterBounds (ee.ImageCollection "NASA/GPM_L3/IMERG_V06") country_geom)
       start_date end_date)
    "precipitationCal".

Definition initial_result (layer : string) : pydict :=
  {[ "status" := PStr "success";
     "layer" := PStr layer;
     "geojson" := PNone;
     "tile_url" := PNone;
     "area_sqkm" := PNone ]}.

Definition layer_update (geojson tile_url area : pyval) : pydict :=
  {[ "geojson" := geojson; "tile_url" := tile_url; "area_sqkm" := area ]}.

Definition no_data_update : pydict :=
  {[ "status" := PStr "error";
     "message" := PStr "No GPM rainfall data available for this period and area" ]}.

Section Handlers.

Variable be : backend.
Variable today : N.

(** Vectorize, fetch the tile URL, sum the area: the tail shared by the
    three branches, in the order of the source. *)
Definition layer_outputs (img country_geom : ee.t) (label colour band : string)
  : M pydict :=
  let* geojson := materialize be (ee_to_geojson (vectors img country_geom label)) in
  let* tile_url := materialize be (get_image_tile_url img (palette colour)) in
  let* raw := materialize be (getInfo (area_sum img country_geom band)) in
  let* area := lift (truediv raw float_1e6) in
  ret (layer_update geojson tile_url area).

Definition get_countries : M pydict :=
  try_except
    (let* country_names :=
       materialize be
         (getInfo (ee.List_sort (ee.distinct (ee.aggregate_array countries "ADM0_NAME")))) in
     ret ({[ "status" := PStr "success"; "countries" := country_names ]} : pydict))
    (fun e => raise (HTTPException 500 (str_exn e))).

Definition query_window (request : FloodMapRequest) : M (string * string) :=
  let* current_date := lift (datetime.now today) in
  let* start_date :=
    or_else (start_date request)
      (let* d := lift (datetime.sub_days current_date 30) in
       ret (datetime.strftime_Ymd d)) in
  let* end_date :=
    or_else (end_date request) (ret (datetime.strftime_Ymd current_date)) in
  ret (start_date, end_date).

Definition generate_flood_map (request : FloodMapRequest) : M pydict :=
  try_except
    ((if negb (truthy (country_name request))
      then raise (HTTPException 400 "Country name is required")
      else ret tt) ;;;
     let* window := query_window request in
     let '(start_date, end_date) := window in
     let country_geom := country_geometry (country_name request) in
     let result := initial_result (layer_type request) in
     if String.eqb (layer_type request) "current" then
       let latest_image :=
         ee.first (ee.sort (s1_collection country_geom start_date end_date)
                     "system:time_start" false) in
       let water := ee.clip (ee.selfMask (ee.lt latest_image (-15 # 1))) country_geom in
       let* outputs := layer_outputs water country_geom "flood" "blue" "VV" in
       ret (update result outputs)
     else if String.eqb (layer_type request) "historical" then
       let historical_ndwi := ee.median (landsat_ndwi country_geom) in
       let historical_flood :=
         ee.clip (ee.selfMask (ee.gt historical_ndwi (3 # 10))) country_geom in
       let* outputs := layer_outputs historical_flood country_geom "flood" "cyan" "NDWI" in
       ret (update result outputs)
     else if String.eqb (layer_type request) "risk" then
       let rainfall_coll := rainfall_collection country_geom start_date end_date in
       let rainfall := ee.mean rainfall_coll in
       let* n := materialize be (getInfo (ee.size rainfall_coll)) in
       let* has_data := lift (gt_zero n) in
       if has_data then
         let high_rain := ee.gt rainfall (50 # 1) in
         let historical_flood := ee.gt (ee.median (landsat_ndwi country_geom)) (3 # 10) in
         let flood_risk :=
           ee.clip (ee.selfMask (ee.And high_rain historical_flood)) country_geom in
         let* outputs := layer_outputs flood_risk country_geom "risk" "red" "NDWI" in
         ret (update result outputs)
       else ret (update result no_data_update)
     else
       raise (HTTPException 400
                "Invalid layer_type. Use 'current', 'historical', or 'risk'"))
    (fun e => raise (HTTPException 500 (str_exn e))).

End Handlers.

(** ** What FastAPI sends back *)

Record response : Type := { status_code : Z; body : pydict }.

(** A returned dictionary is a 200 with that JSON body; an [HTTPException]
    becomes its status with [{"detail": ...}]; anything else escaping a
    handler is a bare 500. *)
Definition serve (m : M pydict) : response * list call :=
  match m nil with
  | (Return d, log) => ({| status_code := 200; body := d |}, log)
  | (Raise (HTTPException c d), log) =>
      ({| status_code := c; body := {[ "detail" := PStr d ]} |}, log)
  | (Raise (PyError _ _), log) =>
      ({| status_code := 500; body := {[ "detail" := PStr "Internal Server Error" ]} |}, log)
  end.

Definition GET_countries (be : backend) : response :=
  fst (serve (get_countries be)).

Definition POST_flood_map (be : backend) (today : N) (request : FloodMapRequest)
  : response :=
  fst (serve (generate_flood_map be today request)).

Definition POST_flood_map_calls (be : backend) (today : N) (request : FloodMapRequest)
  : list call :=
  snd (serve (generate_flood_map be today request)).

(** ** What the service promises *)

(** Ascending order on names, as [ee.List.sort] applies it to strings. *)
Definition name_le (a b : string) : Prop := String.leb a b = true.

#[global] Instance name_le_dec : RelDecision name_le.
Proof. intros a b. unfold name_le. apply _. Defined.

#[global] Instance name_le_total : Total name_le.
Proof. intros a b. apply String.leb_total. Qed.

Definition names_of (v : pyval) : option (list string) :=
  match v with
  | PList l => mapM (fun x => match x with PStr n => Some n | _ => None end) l
  | _ => None
  end.

(** [ee.List.distinct] answers a duplicate-free list with the elements of
    its argument; [ee.List.sort] answers an ascending rearrangement of its
    argument. *)
Record list_contract (be : backend) : Prop := {
  distinct_answer : forall l v,
    be_getInfo be (ee.distinct l) = Return v ->
    exists xs, v = PList (PStr <$> xs) /\ NoDup xs;
  sort_answer : forall l v,
    be_getInfo be (ee.List_sort l) = Return v ->
    exists xs ys,
      be_getInfo be l = Return (PList (PStr <$> xs)) /\
      v = PList (PStr <$> ys) /\ Permutation xs ys /\ Sorted name_le ys
}.

(** Numbers that are not below zero ([-0.0] counts as zero, NaN does not
    qualify). *)
Definition SFnonneg (f : spec_float) : Prop := SFleb (S754_zero false) f = true.

Definition nonneg (v : pyval) : Prop :=
  match v with
  | PFloat f => SFnonneg f
  | PInt z => 0 <= z
  | _ => True
  end.

(** A sum of pixel areas over a mask is never negative. *)
Definition area_contract (be : backend) : Prop :=
  forall img g band v,
    be_getInfo be (area_sum img g band) = Return v -> nonneg v.

(** [geemap] hands back a GeoJSON object and a URL, never [None]. *)
Definition geemap_contract (be : backend) : Prop :=
  (forall e, be_ee_to_geojson be e <> Return PNone) /\
  (forall e v, be_get_image_tile_url be e v <> Return PNone).

(** ** A stand-in service *)

Module Stub.

Fixpoint eval_list (catalog : list string) (e : ee.t) : outcome pyval :=
  match e with
  | ee.aggregate_array (ee.FeatureCollection _) _ => Return (PList (PStr <$> catalog))
  | ee.distinct l =>
      match eval_list catalog l with
      | Return v =>
          match names_of v with
          | Some ns => Return (PList (PStr <$> remove_dups ns))
          | None => Raise (PyError "EEException" "List.distinct: not a list of names")
          end
      | Raise e => Raise e
      end
  | ee.List_sort l =>
      match eval_list catalog l with
      | Return v =>
          match names_of v with
          | Some ns => Return (PList (PStr <$> merge_sort name_le ns))
          | None => Raise (PyError "EEException" "List.sort: not a list of names")
          end
      | Raise e => Raise e
      end
  | _ => Raise (PyError "EEException" "unsupported request")
  end.

Definition geojson : pyval :=
  PDict (("type", PStr "FeatureCollection") :: ("features", PList nil) :: nil).

Definition tile_url : pyval :=
  PStr "https://earthengine.googleapis.com/v1/maps/stub/tiles/{z}/{x}/{y}".

(** A service holding [catalog] as country names, answering [observations]
    to every collection size and [area] to every area sum. *)
Definition service (catalog : list string) (observations : pyval) (area : pyval)
  : backend :=
  {| be_getInfo e :=
       match e with
       | ee.size _ => Return observations
       | ee.get _ _ => Return area
       | _ => eval_list catalog e
       end;
     be_ee_to_geojson _ := Return geojson;
     be_get_image_tile_url _ _ := Return tile_url |}.

Definition east_africa : list string :=
  "Uganda" :: "Kenya" :: "Tanzania" :: "Kenya" :: "Rwanda" :: "Uganda" :: nil.

(** 2.5 km² of raw area, in m². *)
Definition be : backend := service east_africa (PInt 48) (PInt 2500000).

(** The same service with no rainfall observation in any window. *)
Definition dry : backend := service east_africa (PInt 0) (PInt 2500000).

(** 2024-03-15 *)
Definition today : N := 19797.

Definition kenya (layer : string) : FloodMapRequest :=
  {| country_name := "Kenya"; start_date := None; end_date := None;
     layer_type := layer |}.

End Stub.

(** ** Notions the statements use *)

(** The images the three branches analyse. *)
Definition water_image (g : ee.t) (s e : string) : ee.t :=
  ee.clip
    (ee.selfMask
       (ee.lt (ee.first (ee.sort (s1_collection g s e) "system:time_start" false))
          (-15 # 1)))
    g.

Definition historical_flood_image (g : ee.t) : ee.t :=
  ee.clip (ee.selfMask (ee.gt (ee.median (landsat_ndwi g)) (3 # 10))) g.

Definition flood_risk_image (g : ee.t) (s e : string) : ee.t :=
  ee.clip
    (ee.selfMask
       (ee.And (ee.gt (ee.mean (rainfall_collection g s e)) (50 # 1))
          (ee.gt (ee.median (landsat_ndwi g)) (3 # 10))))
    g.

(** The answers behind one successful run of [layer_outputs]. *)
Record outputs_of (be : backend) (img g : ee.t) (label colour band : string)
  (gj tu raw a : pyval) : Prop := {
  out_geojson : be_ee_to_geojson be (vectors img g label) = Return gj;
  out_tile_url : be_get_image_tile_url be img (palette colour) = Return tu;
  out_raw : be_getInfo be (area_sum img g band) = Return raw;
  out_area : truediv raw float_1e6 = Return a
}.

(** The four ways [generate_flood_map] returns a dictionary. *)
Inductive returns_via (be : backend) (request : FloodMapRequest) (s e : string)
  : pydict -> Prop :=
| via_current gj tu raw a :
    layer_type request = "current" ->
    outputs_of be (water_image (country_geometry (country_name request)) s e)
      (country_geometry (country_name request)) "flood" "blue" "VV" gj tu raw a ->
    returns_via be request s e
      (update (initial_result (layer_type request)) (layer_update gj tu a))
| via_historical gj tu raw a :
    layer_type request = "historical" ->
    outputs_of be (historical_flood_image (country_geometry (country_name request)))
      (country_geometry (country_name request)) "flood" "cyan" "NDWI" gj tu raw a ->
    returns_via be request s e
      (update (initial_result (layer_type request)) (layer_update gj tu a))
| via_risk n gj tu raw a :
    layer_type request = "risk" ->
    be_getInfo be
      (ee.size (rainfall_collection (country_geometry (country_name request)) s e))
    = Return n ->
    gt_zero n = Return true ->
    outputs_of be (flood_risk_image (country_geometry (country_name request)) s e)
      (country_geometry (country_name request)) "risk" "red" "NDWI" gj tu raw a ->
    returns_via be request s e
      (update (initial_result (layer_type request)) (layer_update gj tu a))
| via_no_data n :
    layer_type request = "risk" ->
    be_getInfo be
      (ee.size (rainfall_collection (country_geometry (country_name request)) s e))
    = Return n ->
    gt_zero n = Return false ->
    returns_via be request s e
      (update (initial_result (layer_type request)) no_data_update).

(** A key that is present with a value other than [None]. *)
Definition non_null (b : pydict) (key : string) : Prop :=
  exists v, b !! key = Some v /\ v <> PNone.

(** The image a branch analyses and the band it reads the sum from. *)
Definition analysed (g : ee.t) (s e : string) : list (ee.t * string) :=
  (water_image g s e, "VV")
    :: (historical_flood_image g, "NDWI")
    :: (flood_risk_image g s e, "NDWI") :: nil.

(** The defaults of the date window on day [today]. *)
Definition default_start (today : N) : string :=
  datetime.strftime_Ymd (datetime.mk (datetime.EPOCH + Z.of_N today - 30)).

Definition default_end (today : N) : string :=
  datetime.strftime_Ymd (datetime.mk (datetime.EPOCH + Z.of_N today)).

Definition given_or (o : option string) (d : string) : string :=
  match o with
  | Some s => if truthy s then s else d
  | None => d
  end.

(** The expression a call sends, and what the historical branch reads. *)
Definition call_expr (c : call) : ee.t :=
  match c with
  | getInfo e => e
  | ee_to_geojson e => e
  | get_image_tile_url e _ => e
  end.

Definition fixed_window : list (string * list (string * string)) :=
  ("LANDSAT/LC08/C02/T1_L2", ("2019-11-01", "2019-11-12") :: nil) :: nil.

Definition historical_calls (c : string) : list call :=
  let g := country_geometry c in
  ee_to_geojson (vectors (historical_flood_image g) g "flood")
    :: get_image_tile_url (historical_flood_image g) (palette "cyan")
    :: getInfo (area_sum (historical_flood_image g) g "NDWI") :: nil.

(** The historical branch with the request's dates taken out. *)
Definition historical_run (be : backend) (today : N) (c : string) : M pydict :=
  try_except
    ((if negb (truthy c)
      then raise (HTTPException 400 "Country name is required")
      else ret tt) ;;;
     let* _ := lift (datetime.now today) in
     let* outputs :=
       layer_outputs be (historical_flood_image (country_geometry c))
         (country_geometry c) "flood" "cyan" "NDWI" in
     ret (update (initial_result "historical") outputs))
    (fun e => raise (HTTPException 500 (str_exn e))).

(** The month arithmetic at the end of [ord2ymd]. *)
Definition month_day (leapyear : bool) (n : Z) : Z * Z :=
  let month := Z.shiftr (n + 50) 5 in
  let preceding :=
    datetime.DAYS_BEFORE_MONTH month + (if (2 <? month) && leapyear then 1 else 0) in
  if n <? preceding then
    let month := month - 1 in
    let preceding :=
      preceding - (datetime.DAYS_IN_MONTH month
                   + (if (month =? 2) && leapyear then 1 else 0)) in
    (month, n - preceding + 1)
  else (month, n - preceding + 1).

Definition days_in_month (leapyear : bool) (month : Z) : Z :=
  datetime.DAYS_IN_MONTH month + (if (month =? 2) && leapyear then 1 else 0).

Definition month_day_ok (leapyear : bool) (n : Z) : bool :=
  let '(m, d) := month_day leapyear n in
  (1 <=? m) && (m <=? 12) && (1 <=? d) && (d <=? days_in_month leapyear m)
  && (datetime.DAYS_BEFORE_MONTH m + (if (2 <? m) && leapyear then 1 else 0) + d
      =? n + 1).

(** ** Calls a run is expected to send *)

(** The three calls of [layer_outputs], in the order of the source. *)
Definition outputs_calls (img g : ee.t) (label colour band : string) : list call :=
  ee_to_geojson (vectors img g label)
    :: get_image_tile_url img (palette colour)
    :: getInfo (area_sum img g band) :: nil.

Definition size_call (g : ee.t) (s e : string) : call :=
  getInfo (ee.size (rainfall_collection g s e)).

(** All the calls the branch of [request] can send with window [(s, e)]. *)
Definition planned_calls (request : FloodMapRequest) (s e : string) : list call :=
  let g := country_geometry (country_name request) in
  if String.eqb (layer_type request) "current" then
    outputs_calls (water_image g s e) g "flood" "blue" "VV"
  else if String.eqb (layer_type request) "historical" then
    outputs_calls (historical_flood_image g) g "flood" "cyan" "NDWI"
  else if String.eqb (layer_type request) "risk" then
    size_call g s e :: outputs_calls (flood_risk_image g s e) g "risk" "red" "NDWI"
  else nil.

Definition answered (be : backend) (c : call) : Prop :=
  exists v, answer be c = Return v.

Definition countries_query : ee.t :=
  ee.List_sort (ee.distinct (ee.aggregate_array countries "ADM0_NAME")).

Definition GET_countries_calls (be : backend) : list call :=
  snd (serve (get_countries be)).

(** What each branch reads: the collection and its [filterDate] windows. *)
Definition sentinel_window (s e : string) : list (string * list (string * string)) :=
  ("COPERNICUS/S1_GRD", (s, e) :: nil) :: nil.

Definition rainfall_window (s e : string) : list (string * list (string * string)) :=
  ("NASA/GPM_L3/IMERG_V06", (s, e) :: nil) :: nil.

(** The end of a branch: the outputs merged into the result, or the
    exception turned into the 500 of the [except] clause. *)
Definition finish (layer : string) (r : outcome pydict * list call)
  : outcome pydict * list call :=
  match r with
  | (Return outputs, log) => (Return (update (initial_result layer) outputs), log)
  | (Raise err, log) => (Raise (HTTPException 500 (str_exn err)), log)
  end.

(** ** A service that is down *)

Module Outage.

Definition error : exn := PyError "EEException" "Earth Engine is unavailable".

Definition be : backend :=
  {| be_getInfo _ := Raise error;
     be_ee_to_geojson _ := Raise error;
     be_get_image_tile_url _ _ := Raise error |}.

End Outage.

(** * Properties *)

(** ** The model at work *)

Example strftime_epoch :
  datetime.strftime_Ymd (datetime.mk datetime.EPOCH) = "1970-01-01".
Proof. reflexivity. Qed.

Example strftime_leap_day :
  datetime.strftime_Ymd (datetime.mk (datetime.ymd2ord 2024 2 29)) = "2024-02-29".
Proof. reflexivity. Qed.

Example strftime_last_day :
  datetime.strftime_Ymd (datetime.mk datetime.MAXORDINAL) = "9999-12-31".
Proof. reflexivity. Qed.

Example str_int_400 : str_int 400 = "400".
Proof. reflexivity. Qed.

Example float_1e6_is_1000000 :
  float_of_int 1000000 = Return float_1e6.
Proof. reflexivity. Qed.

Example truediv_2500000 :
  truediv (PInt 2500000) float_1e6 = Return (PFloat (S754_finite false 5629499534213120 (-51))).
Proof. reflexivity. Qed.

Example stub_countries :
  GET_countries Stub.be =
  {| status_code := 200;
     body := {[ "status" := PStr "success";
                "countries" := PList (PStr "Kenya" :: PStr "Rwanda" :: PStr "Tanzania"
                                        :: PStr "Uganda" :: nil) ]} |}.
Proof. vm_compute. reflexivity. Qed.

Example stub_window :
  fst (query_window Stub.today (Stub.kenya "current") nil)
  = Return ("2024-02-14", "2024-03-15").
Proof. reflexivity. Qed.

Example stub_current :
  body (POST_flood_map Stub.be Stub.today (Stub.kenya "current")) !! "area_sqkm"
  = Some (PFloat (S754_finite false 5629499534213120 (-51))).
Proof. vm_compute. reflexivity. Qed.

(** ** How the handlers return *)

Ltac monad_unfold :=
  unfold bind, ret, raise, lift, materialize, try_except in *; simpl in *.

Lemma layer_outputs_returns be img g label colour band log outs log' :
  layer_outputs be img g label colour band log = (Return outs, log') ->
  exists gj tu raw a,
    be_ee_to_geojson be (vectors img g label) = Return gj /\
    be_get_image_tile_url be img (palette colour) = Return tu /\
    be_getInfo be (area_sum img g band) = Return raw /\
    truediv raw float_1e6 = Return a /\
    outs = layer_update gj tu a /\
    log' = (log ++ ee_to_geojson (vectors img g label)
                :: get_image_tile_url img (palette colour)
                :: getInfo (area_sum img g band) :: nil)%list.
Proof.
  unfold layer_outputs. monad_unfold. intros H.
  destruct (be_ee_to_geojson be (vectors img g label)) as [gj|] eqn:E1; [|discriminate].
  destruct (be_get_image_tile_url be img (palette colour)) as [tu|] eqn:E2; [|discriminate].
  destruct (be_getInfo be (area_sum img g band)) as [raw|] eqn:E3; [|discriminate].
  destruct (truediv raw float_1e6) as [a|] eqn:E4; [|discriminate].
  inversion H; subst. exists gj, tu, raw, a.
  repeat split; try assumption; try reflexivity.
  rewrite <- !app_assoc. reflexivity.
Qed.

Lemma query_window_log today request log :
  snd (query_window today request log) = log.
Proof.
  unfold query_window, or_else. monad_unfold.
  destruct (datetime.now today); simpl; [|reflexivity].
  destruct (start_date request) as [s|]; [destruct (truthy s)|]; simpl;
    try (destruct (datetime.sub_days a 30); simpl; [|reflexivity]);
    (destruct (end_date request) as [e|]; [destruct (truthy e)|]; reflexivity).
Qed.

Lemma truthy_nonempty s : truthy s = true <-> s <> "".
Proof.
  unfold truthy. rewrite negb_true_iff. apply String.eqb_neq.
Qed.

Lemma generate_flood_map_returns be today request log b log' :
  generate_flood_map be today request log = (Return b, log') ->
  country_name request <> "" /\
  exists s e,
    fst (query_window today request log) = Return (s, e) /\
    returns_via be request s e b.
Proof.
  unfold generate_flood_map, try_except, bind at 1.
  destruct (truthy (country_name request)) eqn:Ht; simpl; [|discriminate].
  intros H. split; [apply truthy_nonempty, Ht|].
  unfold bind at 1 in H.
  pose proof (query_window_log today request log) as Hlog.
  destruct (query_window today request log) as [[[s e]|err] lg]; simpl in *;
    [|discriminate]; subst lg.
  exists s, e. split; [reflexivity|].
  destruct (String.eqb_spec (layer_type request) "current") as [Hc|_].
  { unfold bind at 1 in H.
    destruct (layer_outputs _ _ _ _ _ _ _) as [[outs|] lg] eqn:Ho; [|discriminate].
    apply layer_outputs_returns in Ho as (gj & tu & raw & a & O1 & O2 & O3 & O4 & -> & _).
    inversion H; subst b. eapply via_current; [assumption|]. split; eassumption. }
  destruct (String.eqb_spec (layer_type request) "historical") as [Hh|_].
  { unfold bind at 1 in H.
    destruct (layer_outputs _ _ _ _ _ _ _) as [[outs|] lg] eqn:Ho; [|discriminate].
    apply layer_outputs_returns in Ho as (gj & tu & raw & a & O1 & O2 & O3 & O4 & -> & _).
    inversion H; subst b. eapply via_historical; [assumption|]. split; eassumption. }
  destruct (String.eqb_spec (layer_type request) "risk") as [Hr|_]; [|discriminate].
  unfold bind at 1, materialize in H. simpl in H.
  destruct (be_getInfo be _) as [n|] eqn:En; [|discriminate].
  unfold bind at 1, lift in H.
  destruct (gt_zero n) as [[|]|] eqn:Eg; [| |discriminate].
  - unfold bind at 1 in H.
    destruct (layer_outputs _ _ _ _ _ _ _) as [[outs|] lg] eqn:Ho; [|discriminate].
    apply layer_outputs_returns in Ho as (gj & tu & raw & a & O1 & O2 & O3 & O4 & -> & _).
    inversion H; subst b. eapply via_risk; eauto. split; eassumption.
  - inversion H; subst b. eapply via_no_data; eauto.
Qed.

Lemma generate_flood_map_raises be today request log err log' :
  generate_flood_map be today request log = (Raise err, log') ->
  exists d, err = HTTPException 500 d.
Proof.
  unfold generate_flood_map, try_except.
  match goal with
  | |- (let (_, _) := ?m in _) = _ -> _ => destruct m as [[b|e0] lg]
  end; intros H; [discriminate|].
  unfold raise in H. inversion H. eauto.
Qed.

Lemma POST_flood_map_200 be today request :
  status_code (POST_flood_map be today request) = 200 ->
  exists log,
    generate_flood_map be today request nil
    = (Return (body (POST_flood_map be today request)), log).
Proof.
  unfold POST_flood_map, serve.
  destruct (generate_flood_map be today request nil) as [[b|err] lg] eqn:E.
  - intros _. exists lg. reflexivity.
  - apply generate_flood_map_raises in E as [d ->]. simpl. discriminate.
Qed.

Lemma POST_flood_map_raise be today request d log :
  generate_flood_map be today request nil = (Raise (HTTPException 500 d), log) ->
  POST_flood_map be today request
  = {| status_code := 500; body := {[ "detail" := PStr d ]} |}.
Proof. intros H. unfold POST_flood_map, serve. rewrite H. reflexivity. Qed.

Lemma POST_flood_map_return be today request b log :
  generate_flood_map be today request nil = (Return b, log) ->
  POST_flood_map be today request = {| status_code := 200; body := b |}.
Proof. intros H. unfold POST_flood_map, serve. rewrite H. reflexivity. Qed.

(** ** Validation errors *)

(** C1.  With an empty [country_name] the handler raises its 400 inside the
    [try] block, the [except Exception] clause catches it, and the response
    that leaves the endpoint is a 500 whose detail quotes the 400, whatever
    the dates, the layer type, the service and the clock are. *)
Theorem empty_country_name_answers_500 be today s e layer :
  POST_flood_map be today
    {| country_name := ""; start_date := s; end_date := e; layer_type := layer |}
  = {| status_code := 500;
       body := {[ "detail" := PStr "400: Country name is required" ]} |}.
Proof. reflexivity. Qed.

(** C2.  With a country name and a [layer_type] outside the three known
    values, the response is a 500 as well: the 400 of the final [else] is
    raised inside the same [try] block. *)
Theorem unknown_layer_type_answers_500 be today request :
  country_name request <> "" ->
  layer_type request <> "current" ->
  layer_type request <> "historical" ->
  layer_type request <> "risk" ->
  status_code (POST_flood_map be today request) = 500.
Proof.
  intros Hn Hc Hh Hr.
  destruct (generate_flood_map be today request nil) as [[b|err] lg] eqn:E.
  - apply generate_flood_map_returns in E as (_ & s & e & _ & Hvia).
    inversion Hvia; contradiction.
  - destruct (generate_flood_map_raises _ _ _ _ _ _ E) as [d ->].
    rewrite (POST_flood_map_raise _ _ _ _ _ E). reflexivity.
Qed.

Lemma unknown_layer_type_answers_500_witness :
  status_code
    (POST_flood_map Stub.be Stub.today (Stub.kenya "forecast")) = 500.
Proof.
  apply unknown_layer_type_answers_500; simpl; discriminate.
Defined.

Example unknown_layer_type_detail :
  POST_flood_map Stub.be Stub.today (Stub.kenya "forecast")
  = {| status_code := 500;
       body := {[ "detail" :=
                    PStr "400: Invalid layer_type. Use 'current', 'historical', or 'risk'" ]} |}.
Proof. vm_compute. reflexivity. Qed.

(** ** The result dictionary *)

Lemma truediv_float v d a :
  truediv v d = Return a ->
  exists x, as_float v = Return x /\ a = PFloat (SFdiv prec emax x d).
Proof.
  unfold truediv, float_div. intros H.
  destruct (as_float v) as [x|]; [|discriminate].
  exists x. split; [reflexivity|].
  destruct d; try discriminate; inversion H; reflexivity.
Qed.

Lemma layer_update_lookups layer gj tu a :
  let b := update (initial_result layer) (layer_update gj tu a) in
  b !! "status" = Some (PStr "success") /\
  b !! "layer" = Some (PStr layer) /\
  b !! "geojson" = Some gj /\
  b !! "tile_url" = Some tu /\
  b !! "area_sqkm" = Some a /\
  b !! "message" = None.
Proof. repeat split; reflexivity. Qed.

Lemma no_data_update_lookups layer :
  let b := update (initial_result layer) no_data_update in
  b !! "status" = Some (PStr "error") /\
  b !! "layer" = Some (PStr layer) /\
  b !! "geojson" = Some PNone /\
  b !! "tile_url" = Some PNone /\
  b !! "area_sqkm" = Some PNone /\
  b !! "message"
  = Some (PStr "No GPM rainfall data available for this period and area").
Proof. repeat split; reflexivity. Qed.

(** C10.  Every 200 response of [/flood_map] carries, under ["layer"], the
    request's [layer_type] string itself; this covers the three layer types
    and the risk branch without rainfall data. *)
Theorem layer_echoes_layer_type be today request :
  status_code (POST_flood_map be today request) = 200 ->
  body (POST_flood_map be today request) !! "layer"
  = Some (PStr (layer_type request)).
Proof.
  intros H. apply POST_flood_map_200 in H as [log H].
  apply generate_flood_map_returns in H as (_ & s & e & _ & Hvia).
  destruct Hvia.
  1-3: apply (layer_update_lookups (layer_type request) gj tu a).
  apply (no_data_update_lookups (layer_type request)).
Qed.

Lemma layer_echoes_layer_type_witness :
  body (POST_flood_map Stub.dry Stub.today (Stub.kenya "risk")) !! "layer"
  = Some (PStr "risk").
Proof.
  apply (layer_echoes_layer_type Stub.dry Stub.today (Stub.kenya "risk")).
  vm_compute. reflexivity.
Defined.

(** C4.  In a 200 response of [/flood_map], status ["success"] comes with
    [geojson], [tile_url] and [area_sqkm] all set (the two [geemap] calls
    never answering [None]), and status ["error"] comes with all three
    [None]. *)
Theorem result_fields_all_or_none be today request :
  geemap_contract be ->
  status_code (POST_flood_map be today request) = 200 ->
  let b := body (POST_flood_map be today request) in
  (b !! "status" = Some (PStr "success") ->
   non_null b "geojson" /\ non_null b "tile_url" /\ non_null b "area_sqkm") /\
  (b !! "status" = Some (PStr "error") ->
   b !! "geojson" = Some PNone /\ b !! "tile_url" = Some PNone /\
   b !! "area_sqkm" = Some PNone).
Proof.
  intros [Hgj Htu] H b. apply POST_flood_map_200 in H as [log H].
  fold b in H. clearbody b.
  apply generate_flood_map_returns in H as (_ & s & e & _ & Hvia).
  assert (Hset : forall gj tu raw a img g label colour band,
             outputs_of be img g label colour band gj tu raw a ->
             let d := update (initial_result (layer_type request)) (layer_update gj tu a) in
             (non_null d "geojson" /\ non_null d "tile_url" /\ non_null d "area_sqkm") /\
             d !! "status" <> Some (PStr "error")).
  { intros gj tu raw a img g label colour band [O1 O2 O3 O4].
    destruct (truediv_float _ _ _ O4) as (f & _ & ->).
    split; [|discriminate].
    repeat split.
    - exists gj. split; [reflexivity|]. intros ->. exact (Hgj _ O1).
    - exists tu. split; [reflexivity|]. intros ->. exact (Htu _ _ O2).
    - eexists. split; [reflexivity|discriminate]. }
  destruct Hvia as [gj tu raw a _ Ho|gj tu raw a _ Ho|n gj tu raw a _ _ _ Ho|n _ _ _].
  1-3: destruct (Hset _ _ _ _ _ _ _ _ _ Ho) as [Hall Hne];
       split; [intros _; exact Hall|intros Herr; contradiction].
  split; [discriminate|]. intros _. repeat split; reflexivity.
Qed.

Lemma result_fields_all_or_none_witness :
  let b := body (POST_flood_map Stub.be Stub.today (Stub.kenya "historical")) in
  (b !! "status" = Some (PStr "success") ->
   non_null b "geojson" /\ non_null b "tile_url" /\ non_null b "area_sqkm") /\
  (b !! "status" = Some (PStr "error") ->
   b !! "geojson" = Some PNone /\ b !! "tile_url" = Some PNone /\
   b !! "area_sqkm" = Some PNone).
Proof.
  apply (result_fields_all_or_none Stub.be Stub.today (Stub.kenya "historical")).
  - split; intros; discriminate.
  - vm_compute. reflexivity.
Defined.

Example no_data_fields :
  let b := body (POST_flood_map Stub.dry Stub.today (Stub.kenya "risk")) in
  b !! "status" = Some (PStr "error") /\ b !! "geojson" = Some PNone /\
  b !! "tile_url" = Some PNone /\ b !! "area_sqkm" = Some PNone.
Proof. vm_compute. repeat split; reflexivity. Qed.

(** ** The risk branch without rainfall data *)

(** C5, as stated, at an empty country name: the window is computed, the
    service has no observation in it, and the response is not a 200. *)
Lemma risk_without_rainfall_empty_country_name :
  let request :=
    {| country_name := ""; start_date := None; end_date := None;
       layer_type := "risk" |} in
  fst (query_window Stub.today request nil) = Return ("2024-02-14", "2024-03-15") /\
  be_getInfo Stub.dry
    (ee.size (rainfall_collection (country_geometry "") "2024-02-14" "2024-03-15"))
  = Return (PInt 0) /\
  status_code (POST_flood_map Stub.dry Stub.today request) <> 200.
Proof. vm_compute. repeat split; discriminate. Qed.

(** C5, amended.  A request with a country name and [layer_type] ["risk"],
    whose date window [(s, e)] holds no precipitation observation, is
    answered 200 with status ["error"] and a non-empty message. *)
Theorem risk_without_rainfall_answers_error be today request s e :
  country_name request <> "" ->
  layer_type request = "risk" ->
  fst (query_window today request nil) = Return (s, e) ->
  be_getInfo be
    (ee.size (rainfall_collection (country_geometry (country_name request)) s e))
  = Return (PInt 0) ->
  let r := POST_flood_map be today request in
  status_code r = 200 /\
  body r !! "status" = Some (PStr "error") /\
  exists m, body r !! "message" = Some (PStr m) /\ m <> "".
Proof.
  intros Hn Hl Hw Hz.
  assert (Hrun : generate_flood_map be today request nil
                 = (Return (update (initial_result (layer_type request)) no_data_update),
                    getInfo (ee.size (rainfall_collection
                                        (country_geometry (country_name request)) s e))
                      :: nil)).
  { unfold generate_flood_map, try_except, bind at 1.
    apply truthy_nonempty in Hn. rewrite Hn. simpl.
    unfold bind at 1.
    pose proof (query_window_log today request nil) as Hlog.
    destruct (query_window today request nil) as [o lg]. simpl in Hw, Hlog. subst o lg.
    rewrite Hl. simpl.
    unfold bind at 1, materialize. simpl. rewrite Hz. reflexivity. }
  simpl. rewrite (POST_flood_map_return _ _ _ _ _ Hrun). simpl.
  split; [reflexivity|]. split; [reflexivity|].
  eexists. split; [reflexivity|discriminate].
Qed.

Lemma risk_without_rainfall_answers_error_witness :
  let r := POST_flood_map Stub.dry Stub.today (Stub.kenya "risk") in
  status_code r = 200 /\
  body r !! "status" = Some (PStr "error") /\
  exists m, body r !! "message" = Some (PStr m) /\ m <> "".
Proof.
  apply (risk_without_rainfall_answers_error Stub.dry Stub.today (Stub.kenya "risk")
           "2024-02-14" "2024-03-15").
  - simpl. discriminate.
  - reflexivity.
  - reflexivity.
  - reflexivity.
Defined.

(** ** The date window *)

(** [query_window] in closed form: the server's date is the only thing
    that can make it raise. *)
Lemma query_window_eq today request log :
  query_window today request log
  = (if datetime.MAXORDINAL <? datetime.EPOCH + Z.of_N today
     then Raise (PyError "ValueError" "year 10000 is out of range")
     else Return (given_or (start_date request) (default_start today),
                  given_or (end_date request) (default_end today)),
     log).
Proof.
  unfold query_window, datetime.now, bind at 1, lift.
  destruct (datetime.MAXORDINAL <? datetime.EPOCH + Z.of_N today); [reflexivity|].
  assert (Hsub : datetime.sub_days (datetime.mk (datetime.EPOCH + Z.of_N today)) 30
                 = Return (datetime.mk (datetime.EPOCH + Z.of_N today - 30))).
  { unfold datetime.sub_days. simpl datetime.toordinal.
    destruct (Z.ltb_spec (datetime.EPOCH + Z.of_N today - 30) 1) as [Hlt|_];
      [|reflexivity].
    unfold datetime.EPOCH in Hlt. lia. }
  unfold or_else, given_or, bind, lift, ret. rewrite Hsub.
  destruct (start_date request) as [s|]; [destruct (truthy s)|];
    (destruct (end_date request) as [e|]; [destruct (truthy e)|]); reflexivity.
Qed.

(** C9.  An empty [start_date] or [end_date] runs the handler exactly as an
    omitted one does: same window, same calls, same response. *)
Theorem empty_date_is_omitted be today c s e layer :
  let request s e :=
    {| country_name := c; start_date := s; end_date := e; layer_type := layer |} in
  (query_window today (request (Some "") e) = query_window today (request None e) /\
   generate_flood_map be today (request (Some "") e)
   = generate_flood_map be today (request None e) /\
   POST_flood_map be today (request (Some "") e)
   = POST_flood_map be today (request None e)) /\
  (query_window today (request s (Some "")) = query_window today (request s None) /\
   generate_flood_map be today (request s (Some ""))
   = generate_flood_map be today (request s None) /\
   POST_flood_map be today (request s (Some ""))
   = POST_flood_map be today (request s None)).
Proof. repeat split; reflexivity. Qed.

Example empty_dates_window :
  fst (query_window Stub.today
         {| country_name := "Kenya"; start_date := Some ""; end_date := Some "";
            layer_type := "current" |} nil)
  = Return ("2024-02-14", "2024-03-15").
Proof. reflexivity. Qed.

(** ** The historical branch *)

Lemma layer_outputs_log be img g label colour band log :
  exists sent,
    snd (layer_outputs be img g label colour band log) = (log ++ sent)%list /\
    incl sent (ee_to_geojson (vectors img g label)
                 :: get_image_tile_url img (palette colour)
                 :: getInfo (area_sum img g band) :: nil).
Proof.
  unfold layer_outputs. monad_unfold.
  destruct (be_ee_to_geojson be (vectors img g label)); simpl;
    [|eexists; split; [reflexivity|]; intros x [<-|[]]; simpl; auto].
  destruct (be_get_image_tile_url be img (palette colour)); simpl;
    [|eexists; split; [rewrite <- app_assoc; reflexivity|];
      intros x [<-|[<-|[]]]; simpl; auto].
  eexists; split; [|apply incl_refl].
  destruct (be_getInfo be (area_sum img g band)); simpl;
    [destruct (truediv _ _); simpl|]; rewrite <- !app_assoc; reflexivity.
Qed.

Lemma generate_flood_map_historical be today c s e log :
  generate_flood_map be today
    {| country_name := c; start_date := s; end_date := e;
       layer_type := "historical" |} log
  = historical_run be today c log.
Proof.
  unfold generate_flood_map, historical_run, try_except, bind at 1.
  cbn [country_name]. destruct (truthy c); simpl; [|reflexivity].
  unfold bind at 1. rewrite query_window_eq.
  unfold bind at 2, lift, datetime.now.
  destruct (datetime.MAXORDINAL <? datetime.EPOCH + Z.of_N today); reflexivity.
Qed.

Lemma serve_calls m : snd (serve m) = snd (m nil).
Proof.
  unfold serve. destruct (m nil) as [[b|[c d|cls msg]] lg]; reflexivity.
Qed.

Lemma historical_calls_window c :
  Forall (fun q => ee.collections (call_expr q) = fixed_window) (historical_calls c).
Proof. repeat constructor. Qed.

Lemma historical_run_log be today c :
  incl (snd (historical_run be today c nil)) (historical_calls c).
Proof.
  unfold historical_run, try_except, bind at 1.
  destruct (truthy c); simpl; [|intros x []].
  unfold bind at 1, lift.
  destruct (datetime.now today); simpl; [|intros x []].
  unfold bind at 1.
  destruct (layer_outputs_log be (historical_flood_image (country_geometry c))
              (country_geometry c) "flood" "cyan" "NDWI" nil) as (sent & Hs & Hi).
  destruct (layer_outputs _ _ _ _ _ _ _) as [[outs|err] lg]; simpl in *; subst lg;
    exact Hi.
Qed.

Lemma historical_run_returns be today c b log :
  historical_run be today c nil = (Return b, log) -> log = historical_calls c.
Proof.
  unfold historical_run, try_except, bind at 1.
  destruct (truthy c); simpl; [|discriminate].
  unfold bind at 1, lift.
  destruct (datetime.now today); simpl; [|discriminate].
  unfold bind at 1.
  destruct (layer_outputs _ _ _ _ _ _ _) as [[outs|err] lg] eqn:Ho; simpl;
    [|discriminate].
  apply layer_outputs_returns in Ho as (gj & tu & raw & ar & _ & _ & _ & _ & _ & ->).
  intros H. inversion H. reflexivity.
Qed.

(** C6.  With [layer_type] ["historical"], the response and the calls sent
    to the service are the same for all request dates; every call sent reads
    the Landsat collection filtered to 2019-11-01 .. 2019-11-12 and nothing
    else, and a 200 response has sent exactly the three calls on that
    composite. *)
Theorem historical_ignores_request_dates be today c s e s' e' :
  let request s e :=
    {| country_name := c; start_date := s; end_date := e;
       layer_type := "historical" |} in
  POST_flood_map be today (request s e) = POST_flood_map be today (request s' e') /\
  POST_flood_map_calls be today (request s e)
  = POST_flood_map_calls be today (request s' e') /\
  Forall (fun q => ee.collections (call_expr q) = fixed_window)
    (POST_flood_map_calls be today (request s e)) /\
  (status_code (POST_flood_map be today (request s e)) = 200 ->
   POST_flood_map_calls be today (request s e) = historical_calls c).
Proof.
  intros request.
  assert (Hrun : forall s e,
             serve (generate_flood_map be today (request s e))
             = serve (historical_run be today c)).
  { intros s0 e0. unfold serve, request.
    rewrite generate_flood_map_historical. reflexivity. }
  unfold POST_flood_map, POST_flood_map_calls. rewrite !Hrun.
  split; [reflexivity|]. split; [reflexivity|]. rewrite serve_calls. split.
  - apply Forall_forall. intros q Hq.
    apply list_elem_of_In, historical_run_log in Hq.
    pose proof (historical_calls_window c) as Hw.
    rewrite Forall_forall in Hw. apply Hw. apply list_elem_of_In. exact Hq.
  - unfold serve.
    destruct (historical_run be today c nil) as [[b|[code d|cls msg]] lg] eqn:E;
      simpl; intros H.
    + eapply historical_run_returns. exact E.
    + unfold historical_run, try_except in E.
      match type of E with
      | (let (_, _) := ?m in _) = _ => destruct m as [[b0|e0] lg0]
      end; [discriminate|].
      unfold raise in E. inversion E. subst code. discriminate.
    + discriminate.
Qed.

Example historical_with_dates :
  POST_flood_map Stub.be Stub.today
    {| country_name := "Kenya"; start_date := Some "2023-01-01";
       end_date := Some "2023-02-01"; layer_type := "historical" |}
  = POST_flood_map Stub.be Stub.today (Stub.kenya "historical").
Proof. vm_compute. reflexivity. Qed.

(** For comparison, the current branch does read the request's dates. *)
Example current_reads_request_dates :
  ee.collections
    (water_image (country_geometry "Kenya") "2023-01-01" "2023-02-01")
  = ("COPERNICUS/S1_GRD", ("2023-01-01", "2023-02-01") :: nil) :: nil.
Proof. reflexivity. Qed.

(** ** The country list *)

Lemma names_of_Some v ns : names_of v = Some ns -> v = PList (PStr <$> ns).
Proof.
  destruct v as [| | | | |l|]; try discriminate. simpl.
  revert ns. induction l as [|x l IH]; intros ns H.
  - inversion H. reflexivity.
  - rewrite mapM_cons in H || idtac.
    simpl in H. destruct x; try discriminate. simpl in H.
    destruct (mapM _ l) as [ns'|] eqn:E; [|discriminate].
    inversion H; subst. specialize (IH ns' eq_refl). inversion IH; subst.
    reflexivity.
Qed.

Lemma PStr_fmap_inj (xs ys : list string) :
  PStr <$> xs = PStr <$> ys -> xs = ys.
Proof.
  revert ys. induction xs as [|x xs IH]; intros [|y ys] H; try discriminate.
  - reflexivity.
  - inversion H. f_equal. apply IH. assumption.
Qed.

Lemma get_countries_returns be b log :
  get_countries be nil = (Return b, log) ->
  exists v,
    be_getInfo be (ee.List_sort (ee.distinct (ee.aggregate_array countries "ADM0_NAME")))
    = Return v /\
    b = {[ "status" := PStr "success"; "countries" := v ]}.
Proof.
  unfold get_countries. monad_unfold.
  destruct (be_getInfo be _) as [v|]; intros H; [|discriminate].
  inversion H. eauto.
Qed.

Lemma GET_countries_200 be :
  status_code (GET_countries be) = 200 ->
  exists log, get_countries be nil = (Return (body (GET_countries be)), log).
Proof.
  unfold GET_countries, serve.
  destruct (get_countries be nil) as [[b|err] lg] eqn:E.
  - intros _. exists lg. reflexivity.
  - unfold get_countries in E. monad_unfold.
    destruct (be_getInfo be _); [discriminate|].
    inversion E. simpl. discriminate.
Qed.

(** C8.  On a service whose [distinct] and [sort] keep their word, a 200
    response of [/countries] carries a list of names in ascending order
    and without repetition. *)
Theorem countries_sorted_distinct be :
  list_contract be ->
  status_code (GET_countries be) = 200 ->
  exists names,
    body (GET_countries be) !! "countries" = Some (PList (PStr <$> names)) /\
    Sorted name_le names /\ NoDup names.
Proof.
  intros [Hd Hs] H. apply GET_countries_200 in H as [log H].
  apply get_countries_returns in H as (v & Hv & ->).
  apply Hs in Hv as (xs & ys & Hxs & -> & Hperm & Hsorted).
  apply Hd in Hxs as (xs' & Heq & Hnd).
  inversion Heq as [Heq']. apply PStr_fmap_inj in Heq'. subst xs'.
  exists ys. split; [reflexivity|]. split; [assumption|].
  rewrite <- Hperm. assumption.
Qed.

Lemma stub_list_contract catalog observations area :
  list_contract (Stub.service catalog observations area).
Proof.
  split.
  - intros l v. simpl.
    destruct (Stub.eval_list catalog l) as [w|]; [|discriminate].
    destruct (names_of w) as [ns|]; [|discriminate].
    intros H. inversion H. exists (remove_dups ns). split; [reflexivity|].
    apply NoDup_remove_dups.
  - intros l v. simpl.
    destruct (Stub.eval_list catalog l) as [w|] eqn:E; [|discriminate].
    destruct (names_of w) as [ns|] eqn:En; [|discriminate].
    intros H. inversion H. apply names_of_Some in En. subst w.
    exists ns, (merge_sort name_le ns). repeat split.
    + destruct l; try discriminate E; reflexivity.
    + symmetry. apply merge_sort_Permutation.
    + apply Sorted_merge_sort. apply _.
Qed.

Lemma countries_sorted_distinct_witness :
  exists names,
    body (GET_countries Stub.be) !! "countries" = Some (PList (PStr <$> names)) /\
    Sorted name_le names /\ NoDup names.
Proof.
  apply (countries_sorted_distinct Stub.be).
  - apply stub_list_contract.
  - vm_compute. reflexivity.
Defined.

(** Without [distinct] in the query a duplicate-free answer is not
    guaranteed: sorting the stand-in catalog alone keeps both ["Kenya"]. *)
Example sort_alone_keeps_duplicates :
  be_getInfo Stub.be (ee.List_sort (ee.aggregate_array countries "ADM0_NAME"))
  = Return (PList (PStr "Kenya" :: PStr "Kenya" :: PStr "Rwanda" :: PStr "Tanzania"
                     :: PStr "Uganda" :: PStr "Uganda" :: nil)).
Proof. vm_compute. reflexivity. Qed.

(** ** The area *)

(** *** Signs through binary64 rounding and division *)

Lemma SFnonneg_cases f :
  SFnonneg f <->
  match f with
  | S754_zero _ => True
  | S754_infinity s | S754_finite s _ _ => s = false
  | S754_nan => False
  end.
Proof.
  unfold SFnonneg, SFleb. destruct f as [s|s| |s m e]; simpl;
    try destruct s; split; intros H; try reflexivity; try discriminate;
    try exact I; try contradiction.
Qed.

Lemma shr_1_nonneg mrs : 0 <= shr_m mrs -> 0 <= shr_m (shr_1 mrs).
Proof.
  destruct mrs as [m r s]. simpl. intros H.
  destruct m as [|p|p]; [simpl; lia| |lia].
  destruct p; simpl; lia.
Qed.

Lemma iter_shr_1_nonneg p : forall mrs,
  0 <= shr_m mrs -> 0 <= shr_m (SpecFloat.iter_pos shr_1 p mrs).
Proof.
  induction p as [p IH|p IH|]; intros mrs H; simpl.
  - apply IH, IH, shr_1_nonneg, H.
  - apply IH, IH, H.
  - apply shr_1_nonneg, H.
Qed.

Lemma shr_nonneg mrs e n : 0 <= shr_m mrs -> 0 <= shr_m (fst (shr mrs e n)).
Proof.
  intros H. unfold shr. destruct n; simpl; try assumption.
  apply iter_shr_1_nonneg, H.
Qed.

Lemma shr_fexp_nonneg m e l : 0 <= m -> 0 <= shr_m (fst (shr_fexp prec emax m e l)).
Proof.
  intros H. unfold shr_fexp. apply shr_nonneg.
  destruct l as [|[| |]]; exact H.
Qed.

Lemma round_nearest_even_nonneg m l : 0 <= m -> 0 <= round_nearest_even m l.
Proof.
  intros H. unfold round_nearest_even.
  destruct l as [|[| |]]; try destruct (Z.even m); lia.
Qed.

Lemma binary_round_aux_nonneg m e l :
  0 <= m -> SFnonneg (binary_round_aux prec emax false m e l).
Proof.
  intros H. unfold binary_round_aux.
  pose proof (shr_fexp_nonneg m e l H) as H1.
  destruct (shr_fexp prec emax m e l) as [mrs' e'] eqn:E1. simpl in H1.
  pose proof (shr_fexp_nonneg
                (round_nearest_even (shr_m mrs') (loc_of_shr_record mrs')) e' loc_Exact
                (round_nearest_even_nonneg _ _ H1)) as H2.
  destruct (shr_fexp prec emax (round_nearest_even _ _) e' loc_Exact)
    as [mrs'' e''] eqn:E2.
  simpl in H2. apply SFnonneg_cases.
  destruct (shr_m mrs'') as [|p|p]; [exact I| |lia].
  destruct (Z.leb e'' (Z.sub emax prec)); reflexivity.
Qed.

Lemma float_of_int_nonneg z f :
  0 <= z -> float_of_int z = Return f -> SFnonneg f.
Proof.
  unfold float_of_int, binary_normalize. intros Hz.
  destruct z as [|p|p]; [| |lia].
  - intros H. inversion H. reflexivity.
  - unfold binary_round.
    destruct (shl_align p 0 _) as [mz ez].
    pose proof (binary_round_aux_nonneg (Zpos mz) ez loc_Exact ltac:(lia)) as Hn.
    destruct (binary_round_aux prec emax false (Zpos mz) ez loc_Exact);
      intros H; inversion H; subst; exact Hn.
Qed.

Lemma SFdiv_core_binary_nonneg mx ex my ey :
  0 <= fst (fst (SFdiv_core_binary prec emax (Zpos mx) ex (Zpos my) ey)).
Proof.
  unfold SFdiv_core_binary.
  set (s := Z.sub (Z.sub ex ey) _).
  set (m' := match s with Z0 => Zpos mx | Zpos _ => Z.shiftl (Zpos mx) s | Zneg _ => Z0 end).
  assert (Hm : 0 <= m').
  { unfold m'. destruct s; [lia| |lia]. apply Z.shiftl_nonneg. lia. }
  pose proof (Z.div_pos m' (Zpos my) Hm ltac:(lia)) as Hq.
  unfold Z.div in Hq.
  destruct (Z.div_eucl m' (Zpos my)) as [q r]. exact Hq.
Qed.

Lemma SFdiv_1e6_nonneg x :
  SFnonneg x -> SFnonneg (SFdiv prec emax x float_1e6).
Proof.
  intros H. apply SFnonneg_cases in H. unfold float_1e6.
  destruct x as [s|s| |s m e]; try contradiction; simpl SFdiv.
  - apply SFnonneg_cases. exact I.
  - subst s. reflexivity.
  - subst s. simpl xorb.
    pose proof (SFdiv_core_binary_nonneg m e 8589934592000000 (-33)) as Hq.
    destruct (SFdiv_core_binary prec emax (Zpos m) e _ _) as [[mz ez] lz].
    apply binary_round_aux_nonneg. exact Hq.
Qed.

Lemma as_float_nonneg v x : nonneg v -> as_float v = Return x -> SFnonneg x.
Proof.
  destruct v as [|b|z|y| | |]; try discriminate; simpl; intros Hv H.
  - apply (float_of_int_nonneg (if b then 1 else 0)); [destruct b; lia|exact H].
  - apply (float_of_int_nonneg z); assumption.
  - inversion H; subst. exact Hv.
Qed.

(** *** The area in the response *)

(** C3.  When a 200 response of [/flood_map] carries an [area_sqkm], that
    value is the binary64 quotient by [1e6] of the number the service
    answered for the branch's region sum, and, the service's area sums being
    non-negative, it is not below zero. *)
Theorem area_sqkm_is_raw_over_1e6 be today request a :
  area_contract be ->
  status_code (POST_flood_map be today request) = 200 ->
  body (POST_flood_map be today request) !! "area_sqkm" = Some a ->
  a <> PNone ->
  exists s e img band raw x,
    fst (query_window today request nil) = Return (s, e) /\
    In (img, band) (analysed (country_geometry (country_name request)) s e) /\
    be_getInfo be (area_sum img (country_geometry (country_name request)) band)
    = Return raw /\
    as_float raw = Return x /\
    a = PFloat (SFdiv prec emax x float_1e6) /\
    SFnonneg (SFdiv prec emax x float_1e6).
Proof.
  intros Hc H Ha Hnn. apply POST_flood_map_200 in H as [log H].
  remember (body (POST_flood_map be today request)) as b eqn:Hb. clear Hb.
  apply generate_flood_map_returns in H as (_ & s & e & Hw & Hvia).
  exists s, e.
  assert (Hout : forall img band label colour gj tu raw ar,
             In (img, band) (analysed (country_geometry (country_name request)) s e) ->
             outputs_of be img (country_geometry (country_name request))
               label colour band gj tu raw ar ->
             exists x,
               be_getInfo be (area_sum img (country_geometry (country_name request)) band)
               = Return raw /\
               as_float raw = Return x /\
               ar = PFloat (SFdiv prec emax x float_1e6) /\
               SFnonneg (SFdiv prec emax x float_1e6)).
  { intros img band label colour gj tu raw ar _ [_ _ O3 O4].
    destruct (truediv_float _ _ _ O4) as (x & Hx & ->).
    exists x. repeat split; try assumption.
    apply SFdiv_1e6_nonneg. eapply as_float_nonneg; [|exact Hx].
    eapply Hc. exact O3. }
  destruct Hvia as [gj tu raw ar _ Ho|gj tu raw ar _ Ho|n gj tu raw ar _ _ _ Ho|n _ _ _].
  - destruct (Hout _ _ _ _ _ _ _ _ ltac:(left; reflexivity) Ho) as (x & ? & ? & Har & ?).
    assert (a = ar)
      by (destruct (layer_update_lookups (layer_type request) gj tu ar)
            as (_ & _ & _ & _ & Hl & _); congruence).
    subst a.
    exists (water_image (country_geometry (country_name request)) s e), "VV", raw, x.
    repeat split; try assumption. left; reflexivity.
  - destruct (Hout _ _ _ _ _ _ _ _ ltac:(right; left; reflexivity) Ho)
      as (x & ? & ? & Har & ?).
    assert (a = ar)
      by (destruct (layer_update_lookups (layer_type request) gj tu ar)
            as (_ & _ & _ & _ & Hl & _); congruence).
    subst a.
    exists (historical_flood_image (country_geometry (country_name request))), "NDWI",
      raw, x.
    repeat split; try assumption. right; left; reflexivity.
  - destruct (Hout _ _ _ _ _ _ _ _ ltac:(right; right; left; reflexivity) Ho)
      as (x & ? & ? & Har & ?).
    assert (a = ar)
      by (destruct (layer_update_lookups (layer_type request) gj tu ar)
            as (_ & _ & _ & _ & Hl & _); congruence).
    subst a.
    exists (flood_risk_image (country_geometry (country_name request)) s e), "NDWI",
      raw, x.
    repeat split; try assumption. right; right; left; reflexivity.
  - exfalso. apply Hnn.
    destruct (no_data_update_lookups (layer_type request)) as (_ & _ & _ & _ & Hl & _).
    congruence.
Qed.

Lemma stub_area_contract catalog observations :
  area_contract (Stub.service catalog observations (PInt 2500000)).
Proof.
  intros img g band v H. simpl in H. inversion H. simpl. lia.
Qed.

Lemma area_sqkm_is_raw_over_1e6_witness :
  exists s e img band raw x,
    fst (query_window Stub.today (Stub.kenya "current") nil) = Return (s, e) /\
    In (img, band) (analysed (country_geometry "Kenya") s e) /\
    be_getInfo Stub.be (area_sum img (country_geometry "Kenya") band) = Return raw /\
    as_float raw = Return x /\
    PFloat (S754_finite false 5629499534213120 (-51))
    = PFloat (SFdiv prec emax x float_1e6) /\
    SFnonneg (SFdiv prec emax x float_1e6).
Proof.
  apply (area_sqkm_is_raw_over_1e6 Stub.be Stub.today (Stub.kenya "current")).
  - apply stub_area_contract.
  - vm_compute. reflexivity.
  - vm_compute. reflexivity.
  - discriminate.
Defined.

(** The handler passes the sign of the service's answer through: a service
    answering a negative sum would get a negative [area_sqkm] back. *)
Example negative_sum_passes_through :
  body (POST_flood_map
          (Stub.service Stub.east_africa (PInt 48) (PInt (-2500000)))
          Stub.today (Stub.kenya "current")) !! "area_sqkm"
  = Some (PFloat (S754_finite true 5629499534213120 (-51))).
Proof. vm_compute. reflexivity. Qed.

(** ** The calendar *)

(** *** Printing and reading two digits *)

Lemma digit_val_digit k : datetime.digit_val (digit k) = Some (k mod 10).
Proof.
  unfold datetime.digit_val, digit.
  pose proof (Z.mod_pos_bound k 10 ltac:(lia)) as Hk.
  rewrite nat_ascii_embedding by lia.
  rewrite Nat2Z.inj_add, Z2Nat.id by lia.
  destruct (Z.leb_spec 48 (Z.of_nat 48 + k mod 10)); [|lia].
  destruct (Z.leb_spec (Z.of_nat 48 + k mod 10) 57); [|lia].
  simpl. f_equal. lia.
Qed.

Lemma num2_pad n : 0 <= n -> datetime.num2 (digit (n / 10)) (digit n) = Some (n mod 100).
Proof.
  intros Hn. unfold datetime.num2. rewrite !digit_val_digit. f_equal.
  Z.div_mod_to_equations. lia.
Qed.

(** *** Day of the year to month and day *)

Lemma month_day_table :
  forallb (fun k => month_day_ok false (Z.of_nat k) && month_day_ok true (Z.of_nat k))
    (seq 0 365) = true.
Proof. vm_compute. reflexivity. Qed.

Lemma month_day_spec leapyear n :
  0 <= n < 365 -> month_day_ok leapyear n = true.
Proof.
  intros Hn. pose proof month_day_table as H.
  rewrite forallb_forall in H.
  specialize (H (Z.to_nat n)). rewrite Z2Nat.id in H by lia.
  assert (Hin : In (Z.to_nat n) (seq 0 365)) by (apply in_seq; lia).
  apply H in Hin. apply andb_true_iff in Hin as [Hf Ht].
  destruct leapyear; assumption.
Qed.

(** *** Ordinal to year *)

Lemma year_arith n400 n100 n4 n1 :
  0 <= n400 -> 0 <= n100 <= 3 -> 0 <= n4 <= 24 -> 0 <= n1 <= 3 ->
  let year := n400 * 400 + 1 + n100 * 100 + n4 * 4 + n1 in
  datetime.days_before_year year
  = n400 * datetime.DI400Y + n100 * datetime.DI100Y + n4 * datetime.DI4Y + n1 * 365 /\
  datetime.is_leap year = (n1 =? 3) && (negb (n4 =? 24) || (n100 =? 3)).
Proof.
  intros H400 H100 H4 H1 year. subst year. split.
  - unfold datetime.days_before_year, datetime.DI400Y, datetime.DI100Y, datetime.DI4Y.
    cbv zeta. Z.div_mod_to_equations. lia.
  - unfold datetime.is_leap.
    destruct (Z.eqb_spec n1 3), (Z.eqb_spec n4 24), (Z.eqb_spec n100 3);
      repeat match goal with
        | |- context [?a mod ?b =? 0] => destruct (Z.eqb_spec (a mod b) 0)
        end; simpl; try reflexivity; exfalso; Z.div_mod_to_equations; lia.
Qed.

Lemma ord2ymd_spec o :
  1 <= o <= datetime.MAXORDINAL ->
  exists y m d,
    datetime.ord2ymd o = (y, m, d) /\
    1 <= y <= 9999 /\ 1 <= m <= 12 /\
    1 <= d <= days_in_month (datetime.is_leap y) m /\
    datetime.ymd2ord y m d = o.
Proof.
  intros Ho. unfold datetime.MAXORDINAL in Ho.
  unfold datetime.ord2ymd. cbv zeta.
  set (n := o - 1).
  set (n400 := n / datetime.DI400Y). set (r1 := n mod datetime.DI400Y).
  set (n100 := r1 / datetime.DI100Y). set (r2 := r1 mod datetime.DI100Y).
  set (n4 := r2 / datetime.DI4Y). set (r3 := r2 mod datetime.DI4Y).
  set (n1 := r3 / 365). set (r4 := r3 mod 365).
  assert (Hdec : n = n400 * 146097 + r1 /\ 0 <= r1 < 146097 /\
                 r1 = n100 * 36524 + r2 /\ 0 <= r2 < 36524 /\
                 r2 = n4 * 1461 + r3 /\ 0 <= r3 < 1461 /\
                 r3 = n1 * 365 + r4 /\ 0 <= r4 < 365).
  { unfold n400, r1, n100, r2, n4, r3, n1, r4,
      datetime.DI400Y, datetime.DI100Y, datetime.DI4Y.
    repeat split;
      try (apply Z.mod_pos_bound; lia);
      try (rewrite Z.mul_comm; apply Z.div_mod; lia). }
  clearbody n400 r1 n100 r2 n4 r3 n1 r4.
  destruct Hdec as (E1 & B1 & E2 & B2 & E3 & B3 & E4 & B4).
  assert (Hn : 0 <= n <= 3652058) by (unfold n; lia).
  assert (Hon : o = n + 1) by (unfold n; lia).
  clearbody n.
  assert (H400 : 0 <= n400 <= 24) by lia.
  assert (H100 : 0 <= n100 <= 4) by lia.
  assert (H4 : 0 <= n4 <= 24) by lia.
  assert (H1 : 0 <= n1 <= 4) by lia.
  destruct (Z.eqb_spec n1 4) as [Hs1|Hs1]; simpl orb.
  { (* the last day of a leap year that ends a 4-year cycle *)
    assert (H4' : 0 <= n4 <= 23) by lia.
    assert (H100' : 0 <= n100 <= 3) by lia.
    destruct (year_arith n400 n100 n4 3 ltac:(lia) H100' ltac:(lia) ltac:(lia))
      as [Hd Hl].
    cbv zeta in Hd, Hl. subst n1.
    replace (n400 * 400 + 1 + n100 * 100 + n4 * 4 + 4 - 1)
      with (n400 * 400 + 1 + n100 * 100 + n4 * 4 + 3) by lia.
    do 3 eexists. split; [reflexivity|].
    rewrite Hl. replace (n4 =? 24) with false by (symmetry; apply Z.eqb_neq; lia).
    simpl. unfold datetime.ymd2ord, datetime.days_before_month.
    rewrite Hd, Hl.
    replace (n4 =? 24) with false by (symmetry; apply Z.eqb_neq; lia).
    unfold datetime.DI400Y, datetime.DI100Y, datetime.DI4Y, days_in_month. simpl.
    repeat split; lia. }
  destruct (Z.eqb_spec n100 4) as [Hs2|Hs2].
  { (* the last day of a 400-year cycle *)
    assert (r2 = 0 /\ n4 = 0 /\ r3 = 0 /\ n1 = 0 /\ r4 = 0) as (-> & -> & -> & -> & ->)
      by lia.
    destruct (year_arith n400 3 24 3 ltac:(lia) ltac:(lia) ltac:(lia) ltac:(lia))
      as [Hd Hl].
    cbv zeta in Hd, Hl. subst n100.
    replace (n400 * 400 + 1 + 4 * 100 + 0 * 4 + 0 - 1)
      with (n400 * 400 + 1 + 3 * 100 + 24 * 4 + 3) by lia.
    do 3 eexists. split; [reflexivity|].
    rewrite Hl. unfold datetime.ymd2ord, datetime.days_before_month.
    rewrite Hd, Hl.
    unfold datetime.DI400Y, datetime.DI100Y, datetime.DI4Y, days_in_month. simpl.
    repeat split; lia. }
  assert (H100' : 0 <= n100 <= 3) by lia.
  assert (H1' : 0 <= n1 <= 3) by lia.
  destruct (year_arith n400 n100 n4 n1 ltac:(lia) H100' H4 H1') as [Hd Hl].
  cbv zeta in Hd, Hl.
  set (year := n400 * 400 + 1 + n100 * 100 + n4 * 4 + n1) in *.
  set (leapyear := (n1 =? 3) && (negb (n4 =? 24) || (n100 =? 3))) in *.
  pose proof (month_day_spec leapyear r4 B4) as Hmd.
  unfold month_day_ok in Hmd.
  match goal with
  | |- exists y m d, ?X = _ /\ _ =>
      assert (Hshape : X = let '(m0, d0) := month_day leapyear r4 in (year, m0, d0))
  end.
  { unfold month_day. cbv zeta.
    match goal with |- context [if ?c then _ else _] => destruct c end; reflexivity. }
  rewrite Hshape. clear Hshape.
  destruct (month_day leapyear r4) as [m d].
  exists year, m, d. split; [reflexivity|].
  rewrite Hl. fold leapyear.
  unfold datetime.ymd2ord, datetime.days_before_month. rewrite Hd, Hl. fold leapyear.
  unfold datetime.DI400Y, datetime.DI100Y, datetime.DI4Y.
  repeat (apply andb_true_iff in Hmd as [Hmd ?]).
  repeat match goal with
    | H : (_ <=? _) = true |- _ => apply Z.leb_le in H
    | H : (_ =? _) = true |- _ => apply Z.eqb_eq in H
    end.
  unfold year. repeat split; lia.
Qed.

(** *** Reading back what [strftime] prints *)

Lemma ordinal_of_iso_strftime o :
  1 <= o <= datetime.MAXORDINAL ->
  datetime.ordinal_of_iso (datetime.strftime_Ymd (datetime.mk o)) = Some o.
Proof.
  intros Ho.
  destruct (ord2ymd_spec o Ho) as (y & m & d & E & Hy & Hm & Hd & Hord).
  unfold datetime.strftime_Ymd. simpl datetime.toordinal. rewrite E.
  unfold pad4, pad2, datetime.ordinal_of_iso. cbv [String.append].
  replace (y / 1000) with (y / 100 / 10)
    by (rewrite Z.div_div by lia; reflexivity).
  assert (Hdm : d <= 31).
  { unfold days_in_month in Hd.
    assert (datetime.DAYS_IN_MONTH m <= 31 /\
            (m = 2 -> datetime.DAYS_IN_MONTH m = 28)) as [? ?].
    { assert (Hcases : m = 1 \/ m = 2 \/ m = 3 \/ m = 4 \/ m = 5 \/ m = 6 \/ m = 7 \/
                       m = 8 \/ m = 9 \/ m = 10 \/ m = 11 \/ m = 12) by lia.
      repeat destruct Hcases as [-> | Hcases]; try subst m; simpl; lia. }
    destruct (Z.eqb_spec m 2); destruct (datetime.is_leap y); simpl in Hd; lia. }
  rewrite !num2_pad by (try apply Z.div_pos; lia).
  replace (100 * (y / 100 mod 100) + y mod 100) with y
    by (Z.div_mod_to_equations; lia).
  rewrite (Z.mod_small m 100), (Z.mod_small d 100) by lia.
  unfold days_in_month in Hd.
  destruct (Z.leb_spec 1 y); [|lia].
  destruct (Z.leb_spec 1 m); [|lia].
  destruct (Z.leb_spec m 12); [|lia].
  destruct (Z.leb_spec 1 d); [|lia].
  destruct (Z.leb_spec d
              (datetime.DAYS_IN_MONTH m
               + (if (m =? 2) && datetime.is_leap y then 1 else 0))); [|lia].
  simpl. f_equal. exact Hord.
Qed.

(** ** The default window *)

Lemma now_range today now :
  datetime.now today = Return now ->
  datetime.toordinal now = datetime.EPOCH + Z.of_N today /\
  datetime.EPOCH <= datetime.toordinal now <= datetime.MAXORDINAL.
Proof.
  unfold datetime.now.
  destruct (Z.ltb_spec datetime.MAXORDINAL (datetime.EPOCH + Z.of_N today));
    [discriminate|].
  intros Hret. inversion Hret. simpl. unfold datetime.EPOCH in *. lia.
Qed.

(** C7.  With both dates omitted, and [datetime.now()] giving [now], the
    window is [(s, e)] where [e] is the date of [now] and [s] the date 30
    days before it; the Sentinel-1 and the rainfall collections are
    filtered to exactly that window. *)
Theorem default_window_spans_30_days today request now :
  start_date request = None ->
  end_date request = None ->
  datetime.now today = Return now ->
  exists s e,
    query_window today request nil = (Return (s, e), nil) /\
    datetime.ordinal_of_iso e = Some (datetime.toordinal now) /\
    datetime.ordinal_of_iso s = Some (datetime.toordinal now - 30) /\
    forall g,
      ee.collections (s1_collection g s e)
      = ("COPERNICUS/S1_GRD", (s, e) :: nil) :: nil /\
      ee.collections (rainfall_collection g s e)
      = ("NASA/GPM_L3/IMERG_V06", (s, e) :: nil) :: nil.
Proof.
  intros Hs He Hnow.
  destruct (now_range _ _ Hnow) as [Hord Hrange].
  exists (default_start today), (default_end today).
  split; [|split; [|split]].
  - rewrite query_window_eq, Hs, He.
    unfold datetime.now in Hnow.
    destruct (datetime.MAXORDINAL <? datetime.EPOCH + Z.of_N today);
      [discriminate|reflexivity].
  - unfold default_end. rewrite <- Hord.
    apply ordinal_of_iso_strftime.
    unfold datetime.EPOCH, datetime.MAXORDINAL in *. lia.
  - unfold default_start. rewrite <- Hord.
    apply ordinal_of_iso_strftime.
    unfold datetime.EPOCH, datetime.MAXORDINAL in *. lia.
  - intros g. split; reflexivity.
Qed.

Lemma default_window_spans_30_days_witness :
  exists s e,
    query_window Stub.today (Stub.kenya "current") nil = (Return (s, e), nil) /\
    datetime.ordinal_of_iso e = Some 738960 /\
    datetime.ordinal_of_iso s = Some (738960 - 30) /\
    forall g,
      ee.collections (s1_collection g s e)
      = ("COPERNICUS/S1_GRD", (s, e) :: nil) :: nil /\
      ee.collections (rainfall_collection g s e)
      = ("NASA/GPM_L3/IMERG_V06", (s, e) :: nil) :: nil.
Proof.
  apply (default_window_spans_30_days Stub.today (Stub.kenya "current")
           (datetime.mk 738960)); reflexivity.
Defined.

Example window_across_leap_day :
  fst (query_window 19791 (Stub.kenya "risk") nil) = Return ("2024-02-08", "2024-03-09").
Proof. reflexivity. Qed.

Example ordinal_of_iso_rejects_bad_day :
  datetime.ordinal_of_iso "2023-02-29" = None.
Proof. reflexivity. Qed.

(** * Further properties of the handlers *)

(** ** One run, call by call *)

Lemma layer_outputs_run be img g label colour band log :
  layer_outputs be img g label colour band log
  = match be_ee_to_geojson be (vectors img g label) with
    | Raise err => (Raise err, log ++ firstn 1 (outputs_calls img g label colour band))
    | Return gj =>
        match be_get_image_tile_url be img (palette colour) with
        | Raise err => (Raise err, log ++ firstn 2 (outputs_calls img g label colour band))
        | Return tu =>
            match be_getInfo be (area_sum img g band) with
            | Raise err => (Raise err, log ++ outputs_calls img g label colour band)
            | Return raw =>
                match truediv raw float_1e6 with
                | Raise err => (Raise err, log ++ outputs_calls img g label colour band)
                | Return a =>
                    (Return (layer_update gj tu a),
                     log ++ outputs_calls img g label colour band)
                end
            end
        end
    end%list.
Proof.
  unfold layer_outputs, outputs_calls. monad_unfold.
  destruct (be_ee_to_geojson be (vectors img g label)); simpl; [|reflexivity].
  destruct (be_get_image_tile_url be img (palette colour)); simpl;
    [|rewrite <- app_assoc; reflexivity].
  destruct (be_getInfo be (area_sum img g band)); simpl;
    [destruct (truediv _ _); simpl|]; rewrite <- !app_assoc; reflexivity.
Qed.

(** The handler in closed form: what it returns or raises, and the calls
    it has sent by then. *)
Lemma generate_flood_map_run be today request :
  generate_flood_map be today request nil
  = let g := country_geometry (country_name request) in
    let s := given_or (start_date request) (default_start today) in
    let e := given_or (end_date request) (default_end today) in
    let layer := layer_type request in
    if negb (truthy (country_name request)) then
      (Raise (HTTPException 500
                (str_exn (HTTPException 400 "Country name is required"))), nil)
    else if datetime.MAXORDINAL <? datetime.EPOCH + Z.of_N today then
      (Raise (HTTPException 500 "year 10000 is out of range"), nil)
    else if String.eqb layer "current" then
      finish layer (layer_outputs be (water_image g s e) g "flood" "blue" "VV" nil)
    else if String.eqb layer "historical" then
      finish layer
        (layer_outputs be (historical_flood_image g) g "flood" "cyan" "NDWI" nil)
    else if String.eqb layer "risk" then
      match be_getInfo be (ee.size (rainfall_collection g s e)) with
      | Raise err => (Raise (HTTPException 500 (str_exn err)), size_call g s e :: nil)
      | Return n =>
          match gt_zero n with
          | Raise err =>
              (Raise (HTTPException 500 (str_exn err)), size_call g s e :: nil)
          | Return true =>
              finish layer
                (layer_outputs be (flood_risk_image g s e) g "risk" "red" "NDWI"
                   (size_call g s e :: nil))
          | Return false =>
              (Return (update (initial_result layer) no_data_update),
               size_call g s e :: nil)
          end
      end
    else
      (Raise (HTTPException 500
                (str_exn (HTTPException 400
                   "Invalid layer_type. Use 'current', 'historical', or 'risk'"))),
       nil).
Proof.
  cbv zeta. unfold generate_flood_map, try_except, bind at 1.
  destruct (truthy (country_name request)); simpl; [|reflexivity].
  unfold bind at 1. rewrite query_window_eq.
  destruct (datetime.MAXORDINAL <? datetime.EPOCH + Z.of_N today); [reflexivity|].
  cbv beta iota.
  destruct (String.eqb (layer_type request) "current").
  { unfold bind at 1, finish.
    destruct (layer_outputs _ _ _ _ _ _ _) as [[outs|err] lg]; reflexivity. }
  destruct (String.eqb (layer_type request) "historical").
  { unfold bind at 1, finish.
    destruct (layer_outputs _ _ _ _ _ _ _) as [[outs|err] lg]; reflexivity. }
  destruct (String.eqb (layer_type request) "risk"); [|reflexivity].
  unfold bind at 1, materialize, size_call. simpl.
  destruct (be_getInfo be _) as [n|err]; [|reflexivity].
  unfold bind at 1, lift.
  destruct (gt_zero n) as [[|]|err]; try reflexivity.
  unfold bind at 1, finish.
  destruct (layer_outputs _ _ _ _ _ _ _) as [[outs|err] lg]; reflexivity.
Qed.

Ltac explode_run be today request :=
  rewrite (generate_flood_map_run be today request); cbv zeta;
  destruct (truthy (country_name request)) eqn:Htruthy; simpl negb; cbv iota;
  [ destruct (datetime.MAXORDINAL <? datetime.EPOCH + Z.of_N today) eqn:Hclock;
    [ | destruct (String.eqb_spec (layer_type request) "current") as [Hlayer|Hnc];
        [ | destruct (String.eqb_spec (layer_type request) "historical") as [Hlayer|Hnh];
            [ | destruct (String.eqb_spec (layer_type request) "risk") as [Hlayer|Hnr] ] ] ]
  | ];
  rewrite ?layer_outputs_run; unfold finish;
  repeat match goal with
    | |- context [match be_getInfo ?b ?x with _ => _ end] =>
        destruct (be_getInfo b x) eqn:?
    | |- context [match be_ee_to_geojson ?b ?x with _ => _ end] =>
        destruct (be_ee_to_geojson b x) eqn:?
    | |- context [match be_get_image_tile_url ?b ?x ?y with _ => _ end] =>
        destruct (be_get_image_tile_url b x y) eqn:?
    | |- context [match truediv ?x ?y with _ => _ end] =>
        destruct (truediv x y) eqn:?
    | |- context [match gt_zero ?x with _ => _ end] =>
        destruct (gt_zero x) as [[|]|] eqn:?
    end.

Lemma window_known today request s e :
  fst (query_window today request nil) = Return (s, e) ->
  (datetime.MAXORDINAL <? datetime.EPOCH + Z.of_N today) = false /\
  s = given_or (start_date request) (default_start today) /\
  e = given_or (end_date request) (default_end today).
Proof.
  rewrite query_window_eq. simpl.
  destruct (datetime.MAXORDINAL <? datetime.EPOCH + Z.of_N today); [discriminate|].
  intros H. inversion H. auto.
Qed.

(** ** Which calls are sent, and in which order *)

(** X3.  Whatever the service answers, the calls of a run are a prefix of
    the branch's plan, in the plan's order, and every call but the last one
    sent was answered: the handler stops at the first call that raises. *)
Theorem calls_follow_the_plan be today request s e :
  fst (query_window today request nil) = Return (s, e) ->
  POST_flood_map_calls be today request `prefix_of` planned_calls request s e /\
  Forall (answered be) (removelast (POST_flood_map_calls be today request)).
Proof.
  intros Hw. apply window_known in Hw as (Hc & -> & ->).
  unfold POST_flood_map_calls. rewrite serve_calls.
  unfold planned_calls, answered.
  explode_run be today request; try congruence;
    unfold outputs_calls, size_call; simpl;
    (split; [eexists; reflexivity|]);
    repeat constructor; eexists; simpl; eassumption.
Qed.

Lemma calls_follow_the_plan_witness :
  POST_flood_map_calls Stub.be Stub.today (Stub.kenya "risk")
    `prefix_of` planned_calls (Stub.kenya "risk") "2024-02-14" "2024-03-15" /\
  Forall (answered Stub.be)
    (removelast (POST_flood_map_calls Stub.be Stub.today (Stub.kenya "risk"))).
Proof.
  apply (calls_follow_the_plan Stub.be Stub.today (Stub.kenya "risk")).
  reflexivity.
Defined.

(** X2.  A request the handler rejects, for an empty country name or for
    a layer type it does not know, has sent nothing to the service: looking
    up the country's geometry only builds an expression. *)
Theorem rejected_request_sends_no_call be today request :
  country_name request = "" \/
  (layer_type request <> "current" /\ layer_type request <> "historical" /\
   layer_type request <> "risk") ->
  POST_flood_map_calls be today request = nil.
Proof.
  intros Hrej. unfold POST_flood_map_calls. rewrite serve_calls.
  explode_run be today request; try reflexivity;
    destruct Hrej as [Hempty|(Hc & Hh & Hr)]; try contradiction;
    apply truthy_nonempty in Htruthy; contradiction.
Qed.

Lemma rejected_request_sends_no_call_witness :
  POST_flood_map_calls Stub.be Stub.today (Stub.kenya "forecast") = nil.
Proof.
  apply rejected_request_sends_no_call. right.
  repeat split; simpl; discriminate.
Defined.

(** X4.  A 200 response with status ["success"] has sent the whole plan of
    its branch, in order, and every call was answered. *)
Theorem success_has_sent_the_whole_plan be today request :
  status_code (POST_flood_map be today request) = 200 ->
  body (POST_flood_map be today request) !! "status" = Some (PStr "success") ->
  exists s e,
    fst (query_window today request nil) = Return (s, e) /\
    POST_flood_map_calls be today request = planned_calls request s e /\
    Forall (answered be) (POST_flood_map_calls be today request).
Proof.
  unfold POST_flood_map, POST_flood_map_calls, serve.
  rewrite query_window_eq. unfold planned_calls, answered.
  explode_run be today request; simpl; try discriminate; intros _ Hst;
    try discriminate Hst;
    do 2 eexists; (split; [reflexivity|]);
    unfold outputs_calls, size_call;
    (split; [reflexivity|]);
    repeat constructor; eexists; simpl; eassumption.
Qed.

Lemma success_has_sent_the_whole_plan_witness :
  exists s e,
    fst (query_window Stub.today (Stub.kenya "risk") nil) = Return (s, e) /\
    POST_flood_map_calls Stub.be Stub.today (Stub.kenya "risk")
    = planned_calls (Stub.kenya "risk") s e /\
    Forall (answered Stub.be)
      (POST_flood_map_calls Stub.be Stub.today (Stub.kenya "risk")).
Proof.
  apply success_has_sent_the_whole_plan; vm_compute; reflexivity.
Defined.

(** ** Status codes *)

(** X1.  Neither endpoint ever answers with a status other than 200 or
    500: every exception, the handler's own 400s included, leaves through
    the [except] clause. *)
Theorem endpoints_answer_200_or_500 be today request :
  (status_code (POST_flood_map be today request) = 200 \/
   status_code (POST_flood_map be today request) = 500) /\
  (status_code (GET_countries be) = 200 \/ status_code (GET_countries be) = 500).
Proof.
  split.
  - unfold POST_flood_map, serve.
    destruct (generate_flood_map be today request nil) as [[b|err] lg] eqn:E.
    + left. reflexivity.
    + apply generate_flood_map_raises in E as [d ->]. right. reflexivity.
  - unfold GET_countries, serve, get_countries. monad_unfold.
    destruct (be_getInfo be _); [left|right]; reflexivity.
Qed.

(** ** The no-data answer *)

(** X5.  A 200 response with status ["error"] can only come from the risk
    branch: the one call sent was the size of the rainfall collection over
    the request's window, the service's answer to it was not above zero,
    and the message is the fixed no-data text. *)
Theorem error_status_comes_from_empty_rainfall be today request :
  status_code (POST_flood_map be today request) = 200 ->
  body (POST_flood_map be today request) !! "status" = Some (PStr "error") ->
  layer_type request = "risk" /\
  exists s e n,
    fst (query_window today request nil) = Return (s, e) /\
    POST_flood_map_calls be today request
    = size_call (country_geometry (country_name request)) s e :: nil /\
    answer be (size_call (country_geometry (country_name request)) s e) = Return n /\
    gt_zero n = Return false /\
    body (POST_flood_map be today request) !! "message"
    = Some (PStr "No GPM rainfall data available for this period and area").
Proof.
  unfold POST_flood_map, POST_flood_map_calls, serve.
  rewrite query_window_eq.
  explode_run be today request; simpl; try discriminate; intros _ Hst;
    try discriminate Hst.
  all: split; [assumption|].
  all: do 3 eexists; repeat split; try reflexivity; eassumption.
Qed.

Lemma error_status_comes_from_empty_rainfall_witness :
  layer_type (Stub.kenya "risk") = "risk" /\
  exists s e n,
    fst (query_window Stub.today (Stub.kenya "risk") nil) = Return (s, e) /\
    POST_flood_map_calls Stub.dry Stub.today (Stub.kenya "risk")
    = size_call (country_geometry (country_name (Stub.kenya "risk"))) s e :: nil /\
    answer Stub.dry (size_call (country_geometry (country_name (Stub.kenya "risk"))) s e)
    = Return n /\
    gt_zero n = Return false /\
    body (POST_flood_map Stub.dry Stub.today (Stub.kenya "risk")) !! "message"
    = Some (PStr "No GPM rainfall data available for this period and area").
Proof.
  apply error_status_comes_from_empty_rainfall; vm_compute; reflexivity.
Defined.

(** X6.  The keys of a 200 body: the five result keys when the status is
    ["success"], and the same five plus ["message"] when it is ["error"];
    there is no other status. *)
Theorem result_keys be today request :
  status_code (POST_flood_map be today request) = 200 ->
  let b := body (POST_flood_map be today request) in
  (b !! "status" = Some (PStr "success") /\
   dom b = {[ "status"; "layer"; "geojson"; "tile_url"; "area_sqkm" ]}) \/
  (b !! "status" = Some (PStr "error") /\
   dom b = {[ "status"; "layer"; "geojson"; "tile_url"; "area_sqkm"; "message" ]}).
Proof.
  intros H b. apply POST_flood_map_200 in H as [log H].
  fold b in H. clearbody b.
  apply generate_flood_map_returns in H as (_ & s & e & _ & Hvia).
  destruct Hvia; [left|left|left|right]; (split; [reflexivity|]);
    unfold update, initial_result, layer_update, no_data_update;
    rewrite dom_union_L, !dom_insert_L, !dom_singleton_L, ?dom_empty_L;
    set_solver.
Qed.

Lemma result_keys_witness :
  let b := body (POST_flood_map Stub.be Stub.today (Stub.kenya "current")) in
  (b !! "status" = Some (PStr "success") /\
   dom b = {[ "status"; "layer"; "geojson"; "tile_url"; "area_sqkm" ]}) \/
  (b !! "status" = Some (PStr "error") /\
   dom b = {[ "status"; "layer"; "geojson"; "tile_url"; "area_sqkm"; "message" ]}).
Proof.
  apply (result_keys Stub.be Stub.today (Stub.kenya "current")).
  vm_compute. reflexivity.
Defined.

(** ** Failures of the service *)

(** X7.  When the service's answer to an area sum is never a number (for
    instance [None] for a band the reduction does not have), no branch can
    answer ["success"]: dividing by [1e6] raises, and the only 200 left is
    the no-data answer. *)
Theorem area_that_is_no_number_never_succeeds be today request :
  (forall img g band v,
      be_getInfo be (area_sum img g band) = Return v ->
      forall x, as_float v <> Return x) ->
  status_code (POST_flood_map be today request) = 200 ->
  body (POST_flood_map be today request) !! "status" = Some (PStr "error").
Proof.
  intros Hnum H. apply POST_flood_map_200 in H as [log H].
  remember (body (POST_flood_map be today request)) as b eqn:Hb. clear Hb.
  apply generate_flood_map_returns in H as (_ & s & e & _ & Hvia).
  destruct Hvia as [gj tu raw a _ Ho|gj tu raw a _ Ho|n gj tu raw a _ _ _ Ho|n _ _ _];
    [| | |reflexivity];
    destruct Ho as [_ _ O3 O4];
    destruct (truediv_float _ _ _ O4) as (x & Hx & _);
    exfalso; exact (Hnum _ _ _ _ O3 x Hx).
Qed.

Lemma area_that_is_no_number_never_succeeds_witness :
  body (POST_flood_map (Stub.service Stub.east_africa (PInt 0) PNone)
          Stub.today (Stub.kenya "risk")) !! "status"
  = Some (PStr "error").
Proof.
  apply area_that_is_no_number_never_succeeds.
  - intros img g band v H x. simpl in H. inversion H. simpl. discriminate.
  - vm_compute. reflexivity.
Defined.

Example null_area_in_current_branch :
  status_code (POST_flood_map (Stub.service Stub.east_africa (PInt 48) PNone)
                 Stub.today (Stub.kenya "current")) = 500.
Proof. vm_compute. reflexivity. Qed.

(** X8.  When the last call of a run raised, the response is a 500 whose
    detail is the text of that exception: the service's message reaches the
    client as it is. *)
Theorem failed_call_message_is_the_detail be today request c err :
  last (POST_flood_map_calls be today request) = Some c ->
  answer be c = Raise err ->
  POST_flood_map be today request
  = {| status_code := 500; body := {[ "detail" := PStr (str_exn err) ]} |}.
Proof.
  unfold POST_flood_map, POST_flood_map_calls, serve.
  explode_run be today request; unfold outputs_calls, size_call; simpl;
    intros Hlast Hans; try discriminate Hlast;
    inversion Hlast; subst c; simpl in Hans; congruence.
Qed.

Lemma failed_call_message_is_the_detail_witness :
  POST_flood_map Outage.be Stub.today (Stub.kenya "current")
  = {| status_code := 500;
       body := {[ "detail" := PStr (str_exn Outage.error) ]} |}.
Proof.
  eapply (failed_call_message_is_the_detail Outage.be Stub.today (Stub.kenya "current")).
  - vm_compute. reflexivity.
  - reflexivity.
Defined.

(** X9.  [/countries] sends one call, the sorted distinct names query, and
    hands the service's answer back unchanged, whatever its shape; when the
    call raises, the response is a 500 with the exception's text. *)
Theorem countries_answer_is_passed_through be :
  GET_countries_calls be = getInfo countries_query :: nil /\
  GET_countries be
  = match be_getInfo be countries_query with
    | Return v =>
        {| status_code := 200;
           body := {[ "status" := PStr "success"; "countries" := v ]} |}
    | Raise err =>
        {| status_code := 500; body := {[ "detail" := PStr (str_exn err) ]} |}
    end.
Proof.
  unfold GET_countries_calls, GET_countries, serve, get_countries, countries_query.
  monad_unfold.
  destruct (be_getInfo be _); split; reflexivity.
Qed.

(** ** The dates of a request *)

(** X10.  Every call of the current branch reads the Sentinel-1 collection
    filtered to the request's window and nothing else; every call of the
    risk branch reads the rainfall collection filtered to that window,
    alone or together with the Landsat collection of the fixed 2019
    window. *)
Theorem calls_read_the_request_window be today request s e :
  fst (query_window today request nil) = Return (s, e) ->
  (layer_type request = "current" ->
   Forall (fun q => ee.collections (call_expr q) = sentinel_window s e)
     (POST_flood_map_calls be today request)) /\
  (layer_type request = "risk" ->
   Forall (fun q =>
             ee.collections (call_expr q) = rainfall_window s e \/
             ee.collections (call_expr q) = (rainfall_window s e ++ fixed_window)%list)
     (POST_flood_map_calls be today request)).
Proof.
  intros Hw. apply window_known in Hw as (Hc & -> & ->).
  unfold POST_flood_map_calls. rewrite serve_calls.
  explode_run be today request; try congruence;
    unfold outputs_calls, size_call; simpl;
    (split; intros Hl; try (rewrite Hl in *; congruence));
    repeat (apply List.Forall_cons;
            [first [reflexivity | left; reflexivity | right; reflexivity]|]);
    apply List.Forall_nil.
Qed.

Lemma calls_read_the_request_window_witness :
  (layer_type (Stub.kenya "risk") = "current" ->
   Forall (fun q => ee.collections (call_expr q)
                    = sentinel_window "2024-02-14" "2024-03-15")
     (POST_flood_map_calls Stub.be Stub.today (Stub.kenya "risk"))) /\
  (layer_type (Stub.kenya "risk") = "risk" ->
   Forall (fun q =>
             ee.collections (call_expr q) = rainfall_window "2024-02-14" "2024-03-15" \/
             ee.collections (call_expr q)
             = (rainfall_window "2024-02-14" "2024-03-15" ++ fixed_window)%list)
     (POST_flood_map_calls Stub.be Stub.today (Stub.kenya "risk"))).
Proof.
  apply (calls_read_the_request_window Stub.be Stub.today (Stub.kenya "risk")).
  reflexivity.
Defined.

(** X11.  The two dates are settled one by one.  A non-empty date is used
    exactly as sent, unchecked; a missing or empty start is the day 30 days
    before the server's date, and a missing or empty end is the server's
    date, whatever the other field holds. *)
Theorem each_date_defaults_on_its_own today request now :
  datetime.now today = Return now ->
  exists s e,
    query_window today request nil = (Return (s, e), nil) /\
    (forall s0, start_date request = Some s0 -> s0 <> "" -> s = s0) /\
    (forall e0, end_date request = Some e0 -> e0 <> "" -> e = e0) /\
    (start_date request = None \/ start_date request = Some "" ->
     datetime.ordinal_of_iso s = Some (datetime.toordinal now - 30)) /\
    (end_date request = None \/ end_date request = Some "" ->
     datetime.ordinal_of_iso e = Some (datetime.toordinal now)).
Proof.
  intros Hnow. destruct (now_range _ _ Hnow) as [Hord Hrange].
  exists (given_or (start_date request) (default_start today)),
    (given_or (end_date request) (default_end today)).
  split; [|split; [|split; [|split]]].
  - rewrite query_window_eq. unfold datetime.now in Hnow.
    destruct (datetime.MAXORDINAL <? datetime.EPOCH + Z.of_N today);
      [discriminate|reflexivity].
  - intros s0 -> Hs. apply truthy_nonempty in Hs. simpl. rewrite Hs. reflexivity.
  - intros e0 -> He. apply truthy_nonempty in He. simpl. rewrite He. reflexivity.
  - intros [->| ->]; simpl; unfold default_start; rewrite <- Hord;
      apply ordinal_of_iso_strftime;
      unfold datetime.EPOCH, datetime.MAXORDINAL in *; lia.
  - intros [->| ->]; simpl; unfold default_end; rewrite <- Hord;
      apply ordinal_of_iso_strftime;
      unfold datetime.EPOCH, datetime.MAXORDINAL in *; lia.
Qed.

Lemma each_date_defaults_on_its_own_witness :
  let request :=
    {| country_name := "Kenya"; start_date := None;
       end_date := Some "not a date"; layer_type := "current" |} in
  exists s e,
    query_window Stub.today request nil = (Return (s, e), nil) /\
    (forall s0, start_date request = Some s0 -> s0 <> "" -> s = s0) /\
    (forall e0, end_date request = Some e0 -> e0 <> "" -> e = e0) /\
    (start_date request = None \/ start_date request = Some "" ->
     datetime.ordinal_of_iso s = Some (738960 - 30)) /\
    (end_date request = None \/ end_date request = Some "" ->
     datetime.ordinal_of_iso e = Some 738960).
Proof.
  intros request.
  apply (each_date_defaults_on_its_own Stub.today request (datetime.mk 738960)).
  reflexivity.
Defined.

Example unchecked_end_date_reaches_the_service :
  POST_flood_map_calls Stub.be Stub.today
    {| country_name := "Kenya"; start_date := None;
       end_date := Some "not a date"; layer_type := "current" |}
  = planned_calls (Stub.kenya "current") "2024-02-14" "not a date".
Proof. vm_compute. reflexivity. Qed.

(** X12.  The historical branch does not depend on the server's date
    either: on any two days on which [datetime.now()] works, the same
    request gets the same response through the same calls. *)
Theorem historical_ignores_the_clock be today today' c s e now now' :
  datetime.now today = Return now ->
  datetime.now today' = Return now' ->
  let request :=
    {| country_name := c; start_date := s; end_date := e;
       layer_type := "historical" |} in
  POST_flood_map be today request = POST_flood_map be today' request /\
  POST_flood_map_calls be today request = POST_flood_map_calls be today' request.
Proof.
  intros Hn Hn' request.
  assert (Hrun : serve (generate_flood_map be today request)
                 = serve (generate_flood_map be today' request)).
  { unfold serve, request. rewrite !generate_flood_map_historical.
    unfold historical_run, try_except, bind at 1 3.
    destruct (truthy c); simpl; [|reflexivity].
    unfold bind at 1 3, lift. rewrite Hn, Hn'. reflexivity. }
  unfold POST_flood_map, POST_flood_map_calls. rewrite Hrun. split; reflexivity.
Qed.

Lemma historical_ignores_the_clock_witness :
  let request :=
    {| country_name := "Kenya"; start_date := None; end_date := None;
       layer_type := "historical" |} in
  POST_flood_map Stub.be Stub.today request = POST_flood_map Stub.be 0 request /\
  POST_flood_map_calls Stub.be Stub.today request
  = POST_flood_map_calls Stub.be 0 request.
Proof.
  apply (historical_ignores_the_clock Stub.be Stub.today 0%N "Kenya" None None
           (datetime.mk 738960) (datetime.mk 719163)); reflexivity.
Defined.
